(** * Survey aggregation and text normalisation: a shallow embedding

    The development follows the two Python modules of the repository:

    - [NLP_with_ML/process_survey.py]: [process_teacher_csvs], which reads one
      table per teacher and reduces four row bands of the "AVG" column to
      their means, and [process_teacher_csvs_custom], the same with the bands
      as an argument (modules [ProcessSurvey] and [ProcessSurveyCustom],
      properties in [SurveyFacts], [RunFacts] and [CustomFacts]);
    - [NLP_with_ML/text_preprocessing.py]: [remove_lower],
      [token_lemma_nonstop] and [clean_normalize] (module [TextPreprocessing],
      properties in [TextFacts] and [CleanFacts]).

    Python values are modelled as follows.  A [str] is the list of its code
    points.  A float is a binary64 number, with its rounding, its infinities
    and its not-a-number.  A column of a table is typed as a whole, as
    [pd.read_csv] types it: numbers, or text.  An exception is a value of
    [exn]; a computation that prints and may raise is a value of [M].  A
    directory is the list of its entries, each with what [pd.read_csv] yields
    on it.  The order in which the library adds up the numbers of a slice, the
    spaCy pipeline and the Unicode tables beyond ASCII are parameters. *)

From Stdlib Require Import Floats.
From Stdlib Require Uint63.
From Stdlib Require Import String Ascii.
From Stdlib Require Import List ZArith NArith QArith Bool Arith Lia.
Import ListNotations.
Close Scope Q_scope.

(** ** Python strings *)

Module Py.

Definition pychar := N.
Definition pystr := list pychar.

(** The code points of an ASCII literal. *)
Definition py (s : string) : pystr := map N_of_ascii (list_ascii_of_string s).

Fixpoint str_eqb (a b : pystr) : bool :=
  match a, b with
  | [], [] => true
  | x :: a', y :: b' => N.eqb x y && str_eqb a' b'
  | _, _ => false
  end.

(** [s.startswith(p)] *)
Fixpoint startswith (s p : pystr) {struct p} : bool :=
  match p, s with
  | [], _ => true
  | x :: p', y :: s' => N.eqb x y && startswith s' p'
  | _ :: _, [] => false
  end.

(** [s.endswith(p)]: the last [len(p)] code points of [s] are [p]. *)
Definition endswith (s p : pystr) : bool :=
  (length p <=? length s) && str_eqb (skipn (length s - length p) s) p.

(** [s.replace(old, new)] for a non-empty [old] (the only use in the source
    has [old = ".csv"]): the text is scanned from the left; at a position
    where [old] occurs, [new] is emitted and the scan resumes after the
    occurrence, so that occurrences are replaced left to right without
    overlap.  [skip] counts the code points of the current occurrence still to
    be passed over. *)
Fixpoint replace_from (old new : pystr) (skip : nat) (s : pystr) : pystr :=
  match s with
  | [] => []
  | c :: r =>
      match skip with
      | S k => replace_from old new k r
      | O =>
          if startswith s old
          then new ++ replace_from old new (length old - 1) r
          else c :: replace_from old new 0 r
      end
  end.

Definition str_replace (s old new : pystr) : pystr := replace_from old new 0 s.

(** [sep.join(parts)] *)
Fixpoint join (sep : pystr) (parts : list pystr) : pystr :=
  match parts with
  | [] => []
  | [p] => p
  | p :: rest => p ++ sep ++ join sep rest
  end.

End Py.
Import Py.

(** ** Exceptions and printing *)

Module Effects.

(** The exceptions that can reach [process_teacher_csvs]: the ones the code
    names or that the pandas operations it calls raise, and the ways
    [pd.read_csv] fails on a file that cannot be read or parsed. *)
Inductive exn : Type :=
| IndexError
| KeyError
| TypeError
| ValueError
| OSError
| EmptyDataError
| ParserError
| UnicodeDecodeError.

Section Monad.
(** The lines a run prints are values of [Ev]. *)
Variable Ev : Type.

(** A computation prints lines and then returns a value or raises. *)
Definition M (A : Type) : Type := (list Ev * (exn + A))%type.

Definition ret {A} (a : A) : M A := ([], inr a).
Definition raise {A} (e : exn) : M A := ([], inl e).
Definition print (ev : Ev) : M unit := ([ev], inr tt).

Definition bind {A B} (m : M A) (k : A -> M B) : M B :=
  match m with
  | (out, inl e) => (out, inl e)
  | (out, inr a) => let '(out', r) := k a in (out ++ out', r)
  end.

(** [try: body  except IndexError: handler]: the handler runs after what
    the body printed; every other exception passes through. *)
Definition try_except_IndexError {A} (body : M A) (handler : M A) : M A :=
  match body with
  | (out, inl IndexError) => let '(out', r) := handler in (out ++ out', r)
  | other => other
  end.

Definition stdout {A} (m : M A) : list Ev := fst m.
Definition outcome {A} (m : M A) : exn + A := snd m.
End Monad.

Arguments ret {Ev A} a.
Arguments raise {Ev A} e.
Arguments print {Ev} ev.
Arguments bind {Ev A B} m k.
Arguments try_except_IndexError {Ev A} body handler.
Arguments stdout {Ev A} m.
Arguments outcome {Ev A} m.

Declare Scope py_scope.
Delimit Scope py_scope with py.
Notation "x <- c ;; k" := (bind c (fun x => k))
  (at level 61, c at next level, right associativity) : py_scope.
Notation "c ;;; k" := (bind c (fun _ => k))
  (at level 61, right associativity) : py_scope.

End Effects.
Import Effects.
Open Scope py_scope.

(** ** The pandas operations the aggregator uses *)

Module Pandas.

(** A Python float, and an element of a float64 column: a binary64 number. *)
Definition pyfloat : Type := PrimFloat.float.

(** Not-a-number: the result of an empty mean, and a missing value in a
    column of numbers. *)
Definition NaN : pyfloat := PrimFloat.nan.

(** [x != x] *)
Definition isnan (x : pyfloat) : bool := negb (PrimFloat.eqb x x).

(** A count as a float. *)
Definition of_count (n : nat) : pyfloat :=
  PrimFloat.of_uint63 (Uint63.of_Z (Z.of_nat n)).

(** A column, typed as a whole as [pd.read_csv] types it: a column in which
    every cell that is not empty is a number holds floats, an empty cell
    being not-a-number, and a column without any row behaves as one; a
    column with a cell that is neither is held as text, all of it, an empty
    cell being [None]. *)
Inductive Series : Type :=
| Numeric (values : list pyfloat)
| Text (values : list (option pystr)).

(** [len(s)] *)
Definition size (s : Series) : nat :=
  match s with
  | Numeric vs => length vs
  | Text ts => length ts
  end.

(** A table: its labelled columns, in order. *)
Record DataFrame : Type := { columns : list (pystr * Series) }.

(** [len(df)]: the number of rows. *)
Definition len (df : DataFrame) : nat :=
  match columns df with
  | [] => 0
  | (_, s) :: _ => size s
  end.

(** [name in df.columns] *)
Definition has_column (name : pystr) (df : DataFrame) : bool :=
  existsb (fun c => str_eqb (fst c) name) (columns df).

Definition column (name : pystr) (df : DataFrame) : option Series :=
  option_map snd (find (fun c => str_eqb (fst c) name) (columns df)).

(** [df[name]]: a missing label raises [KeyError]. *)
Definition getitem {Ev} (df : DataFrame) (name : pystr) : M Ev Series :=
  match column name df with
  | Some s => ret s
  | None => raise KeyError
  end.

(** The positions [start], ..., [stop - 1] of a list, as far as they exist. *)
Definition slice {A} (l : list A) (start stop : nat) : list A :=
  firstn (stop - start) (skipn start l).

(** [s.iloc[start:stop]] with non-negative bounds: a positional slice keeps
    the rows that exist in the range and never raises; past the end it is
    shorter, possibly empty.  It has the type of the column. *)
Definition iloc (s : Series) (start stop : nat) : Series :=
  match s with
  | Numeric vs => Numeric (slice vs start stop)
  | Text ts => Text (slice ts start stop)
  end.

(** The values that are present ([skipna=True]). *)
Definition present (vs : list pyfloat) : list pyfloat :=
  filter (fun x => negb (isnan x)) vs.

(** The sum of the values of a slice that are present.  The result depends
    on the order in which they are added, which is the library's own and
    not the same in every installation. *)
Class Summation : Type := { nansum : list pyfloat -> pyfloat }.

(** The mean of the values that are present: their sum over their count,
    not-a-number when there is none. *)
Definition nanmean `{Summation} (vs : list pyfloat) : pyfloat :=
  match present vs with
  | [] => NaN
  | xs => PrimFloat.div (nansum vs) (of_count (length xs))
  end.

(** [s.mean()]: [nanmean] on a column of numbers; on a column held as
    text the reduction is refused with [TypeError], whatever the slice,
    also one without a row or without a text. *)
Definition mean `{Summation} {Ev} (s : Series) : M Ev pyfloat :=
  match s with
  | Numeric vs => ret (nanmean vs)
  | Text _ => raise TypeError
  end.

(** The values added one after the other, from zero. *)
Definition sequential : Summation :=
  {| nansum := fun vs => fold_left PrimFloat.add (present vs) 0%float |}.

(** The first value added to the sum of the others. *)
Definition first_then_rest : Summation :=
  {| nansum := fun vs =>
       match present vs with
       | [] => 0%float
       | x :: rest => PrimFloat.add x (fold_left PrimFloat.add rest 0%float)
       end |}.

End Pandas.
Import Pandas.

(** ** [process_survey.py] *)

Module ProcessSurvey.

(** One constructor per [print] call of [process_teacher_csvs], with the
    values the line is formatted from. *)
Inductive line : Type :=
| FoundFiles (n : nat)
| Rule
| WarnNoAVG (csv_file : pystr)
| Processed (teacher_name : pystr)
| MetricLine (label : pystr) (v : pyfloat)
| Blank
| NotEnoughRows (csv_file : pystr)
| ExpectedRows (found : nat)
| Succeeded (n : nat).

(** The dictionary [data]: five lists that grow together. *)
Record Data : Type := {
  Name : list pystr;
  Instructor_Skill : list pyfloat;
  Interaction : list pyfloat;
  Student_Motivation : list pyfloat;
  Course_Organization : list pyfloat
}.

Definition empty_data : Data :=
  {| Name := []; Instructor_Skill := []; Interaction := [];
     Student_Motivation := []; Course_Organization := [] |}.

(** A row of the result table. *)
Record TeacherRecord : Type := {
  teacher_name : pystr;
  instructor_skill : pyfloat;
  interaction : pyfloat;
  student_motivation : pyfloat;
  course_organization : pyfloat
}.

(** The five [append] calls of the loop body. *)
Definition append (data : Data) (r : TeacherRecord) : Data :=
  {| Name := Name data ++ [teacher_name r];
     Instructor_Skill := Instructor_Skill data ++ [instructor_skill r];
     Interaction := Interaction data ++ [interaction r];
     Student_Motivation := Student_Motivation data ++ [student_motivation r];
     Course_Organization := Course_Organization data ++ [course_organization r] |}.

(** The rows of five lists of one length; [None] when the lengths differ. *)
Fixpoint rows (n : list pystr) (a b c d : list pyfloat)
  : option (list TeacherRecord) :=
  match n, a, b, c, d with
  | [], [], [], [], [] => Some []
  | x :: n', y :: a', z :: b', u :: c', v :: d' =>
      option_map
        (cons {| teacher_name := x; instructor_skill := y; interaction := z;
                 student_motivation := u; course_organization := v |})
        (rows n' a' b' c' d')
  | _, _, _, _, _ => None
  end.

Definition rows_of (data : Data) : option (list TeacherRecord) :=
  rows (Name data) (Instructor_Skill data) (Interaction data)
       (Student_Motivation data) (Course_Organization data).

(** [pd.DataFrame(data)]: the table whose columns are the lists of [data];
    lists of different lengths raise [ValueError]. *)
Definition pd_DataFrame (data : Data) : M line (list TeacherRecord) :=
  match rows_of data with
  | Some rs => ret rs
  | None => raise ValueError
  end.

(** A directory entry: its name and what [pd.read_csv] yields on it, a table
    or the exception raised for a file it cannot read or parse. *)
Definition entry : Type := (pystr * (exn + DataFrame))%type.
Definition Folder : Type := list entry.

Definition read_csv (file : exn + DataFrame) : M line DataFrame :=
  match file with
  | inl e => raise e
  | inr df => ret df
  end.

Definition AVG : pystr := py "AVG".
Definition dot_csv : pystr := py ".csv".

Section Code.
Context {S : Summation}.

(** The body of the [try] block, [name] being the teacher's name: the four
    band means, the five appends, the lines printed.  No statement that can raise
    follows the first append, so the body either returns [data] with one
    record more or raises with [data] as it was. *)
Definition try_body (data : Data) (name : pystr) (df : DataFrame) : M line Data :=
  avg0 <- getitem df AVG ;;
  instructor_skill <- mean (iloc avg0 0 5) ;;
  avg1 <- getitem df AVG ;;
  interaction <- mean (iloc avg1 5 11) ;;
  avg2 <- getitem df AVG ;;
  student_motivation <- mean (iloc avg2 11 15) ;;
  avg3 <- getitem df AVG ;;
  course_organization <- mean (iloc avg3 15 21) ;;
  let data :=
    append data
      {| teacher_name := name;
         instructor_skill := instructor_skill;
         interaction := interaction;
         student_motivation := student_motivation;
         course_organization := course_organization |} in
  print (Processed name) ;;;
  print (MetricLine (py "Instructor_Skill") instructor_skill) ;;;
  print (MetricLine (py "Interaction") interaction) ;;;
  print (MetricLine (py "Student_Motivation") student_motivation) ;;;
  print (MetricLine (py "Course_Organization") course_organization) ;;;
  print Blank ;;;
  ret data.

(** The [except IndexError] handler: two lines, a blank, [continue]. *)
Definition handler (data : Data) (csv_file : pystr) (df : DataFrame) : M line Data :=
  print (NotEnoughRows csv_file) ;;;
  print (ExpectedRows (len df)) ;;;
  print Blank ;;;
  ret data.

(** One iteration of [for csv_file in csv_files]. *)
Definition loop_body (data : Data) (e : entry) : M line Data :=
  let '(csv_file, file) := e in
  let name := str_replace csv_file dot_csv [] in
  df <- read_csv file ;;
  if negb (has_column AVG df) then
    print (WarnNoAVG csv_file) ;;;
    ret data
  else
    try_except_IndexError (try_body data name df) (handler data csv_file df).

Fixpoint for_each (csv_files : list entry) (data : Data) : M line Data :=
  match csv_files with
  | [] => ret data
  | e :: rest =>
      data' <- loop_body data e ;;
      for_each rest data'
  end.

(** [[f for f in os.listdir(folder_path) if f.endswith('.csv')]] *)
Definition csv_files_of (folder : Folder) : list entry :=
  filter (fun e => endswith (fst e) dot_csv) folder.

Definition process_teacher_csvs (folder : Folder) : M line (list TeacherRecord) :=
  let csv_files := csv_files_of folder in
  print (FoundFiles (length csv_files)) ;;;
  print Rule ;;;
  data <- for_each csv_files empty_data ;;
  result_df <- pd_DataFrame data ;;
  print Rule ;;;
  print (Succeeded (length result_df)) ;;;
  ret result_df.

End Code.

(** *** What an iteration yields *)

(** The record the [try] block builds from a column of numbers. *)
Definition band_record {S : Summation} (name : pystr) (vs : list pyfloat)
  : TeacherRecord :=
  {| teacher_name := name;
     instructor_skill := nanmean (slice vs 0 5);
     interaction := nanmean (slice vs 5 11);
     student_motivation := nanmean (slice vs 11 15);
     course_organization := nanmean (slice vs 15 21) |}.

(** The lines the [try] block prints for a record. *)
Definition processed_lines (r : TeacherRecord) : list line :=
  [Processed (teacher_name r);
   MetricLine (py "Instructor_Skill") (instructor_skill r);
   MetricLine (py "Interaction") (interaction r);
   MetricLine (py "Student_Motivation") (student_motivation r);
   MetricLine (py "Course_Organization") (course_organization r);
   Blank].

(** What an iteration can do: raise with nothing printed, skip the file, or
    add one record. *)
Inductive step_result (data : Data) (csv_file : pystr) : M line Data -> Prop :=
| step_raise (e : exn) :
    e <> IndexError -> step_result data csv_file ([], inl e)
| step_load_IndexError :
    step_result data csv_file ([], inl IndexError)
| step_skip :
    step_result data csv_file ([WarnNoAVG csv_file], inr data)
| step_record (r : TeacherRecord) :
    step_result data csv_file (processed_lines r, inr (append data r)).

(** No line of the handler. *)
Definition not_handler_line (l : line) : Prop :=
  match l with
  | NotEnoughRows _ | ExpectedRows _ => False
  | _ => True
  end.

(** *** Bands as the specification words them *)

(** The value in row [i] of a column of numbers. *)
Definition row_value (vs : list pyfloat) (i : nat) : pyfloat := nth i vs NaN.

(** Rows [start], ..., [stop - 1]. *)
Definition band_rows (vs : list pyfloat) (start stop : nat) : list pyfloat :=
  map (row_value vs) (seq start (stop - start)).

(** The mean of a list of floats as the library computes it: the float sum
    divided by the count. *)
Definition float_mean {S : Summation} (l : list pyfloat) : pyfloat :=
  PrimFloat.div (nansum l) (of_count (length l)).

(** The mean of rows [start], ..., [stop - 1]. *)
Definition band_mean {S : Summation} (vs : list pyfloat) (start stop : nat)
  : pyfloat :=
  float_mean (band_rows vs start stop).

(** A table whose "AVG" column holds numbers, at least 21 rows, none of the
    first 21 missing. *)
Definition valid_table (df : DataFrame) (vs : list pyfloat) : Prop :=
  column AVG df = Some (Numeric vs)
  /\ 21 <= length vs
  /\ forallb (fun x => negb (isnan x)) (firstn 21 vs) = true.

(** Two columns hold the same values in rows [start], ..., [stop - 1]. *)
Definition same_band (vs vs' : list pyfloat) (start stop : nat) : Prop :=
  forall i, start <= i < stop -> nth i vs NaN = nth i vs' NaN.

(** The run over a directory holding the one file [csv_file] returns the
    one-row table [r]. *)
Definition produces {S : Summation} (csv_file : pystr) (df : DataFrame)
           (r : TeacherRecord) : Prop :=
  outcome (process_teacher_csvs [(csv_file, inr df)]) = inr [r].

(** The rational number a finite float stands for. *)
Definition exact (x : pyfloat) : option Q :=
  match Prim2SF x with
  | S754_zero _ => Some 0%Q
  | S754_finite s m e =>
      Some ((if s then -1 else 1) * inject_Z (Zpos m) * Qpower 2 e)%Q
  | _ => None
  end.

Fixpoint exact_all (l : list pyfloat) : option (list Q) :=
  match l with
  | [] => Some []
  | x :: r =>
      match exact x, exact_all r with
      | Some q, Some qs => Some (q :: qs)
      | _, _ => None
      end
  end.

(** The arithmetic mean of a list of numbers: their sum over their count. *)
Definition arithmetic_mean (l : list Q) : Q :=
  (fold_right Qplus 0 l / inject_Z (Z.of_nat (length l)))%Q.

(** [x] is a number, and the arithmetic mean of the numbers [l]. *)
Definition is_arithmetic_mean (x : pyfloat) (l : list pyfloat) : bool :=
  match exact x, exact_all l with
  | Some q, Some qs => Qeq_bool q (arithmetic_mean qs)
  | _, _ => false
  end.

(** The rows [start], ..., [stop - 1] that the column has. *)
Definition rows_found (vs : list pyfloat) (start stop : nat) : list pyfloat :=
  map (row_value vs) (seq start (Nat.min stop (length vs) - start)).

(** How many values of a list are present. *)
Definition count_present (l : list pyfloat) : nat :=
  fold_right (fun x n => if isnan x then n else S n) 0 l.

(** The mean of the values of a list that are present, missing values left
    out of the sum and of the count; not-a-number when none is present. *)
Definition mean_of_present {S : Summation} (l : list pyfloat) : pyfloat :=
  if count_present l =? 0 then NaN
  else PrimFloat.div (nansum l) (of_count (count_present l)).

(** The files of a listing whose table has an "AVG" column. *)
Definition has_AVG (e : entry) : bool :=
  match snd e with
  | inl _ => false
  | inr df => has_column AVG df
  end.

(** ".csv" occurs in [f ++ ".csv"] at the end only: no occurrence starts
    inside [f]. *)
Fixpoint only_final_csv (f : pystr) : bool :=
  match f with
  | [] => true
  | _ :: f' => negb (startswith (f ++ dot_csv) dot_csv) && only_final_csv f'
  end.

(** *** Sample tables and directories *)

Definition ones (n : nat) : Series := Numeric (repeat 1%float n).

(** The numbers 1, 2, ..., [n]. *)
Definition count_up (n : nat) : list pyfloat := map of_count (seq 1 n).

(** The float nearest to one tenth. *)
Definition tenth : pyfloat := 0x1.999999999999ap-4%float.

(** The float nearest to 1e308. *)
Definition huge : pyfloat := 0x1.1ccf385ebc8ap+1023%float.

(** A table with a column of text and the column [avg] as "AVG". *)
Definition table (avg : Series) : DataFrame :=
  {| columns := [(py "Question", Text (repeat (Some (py "q")) (size avg)));
                 (AVG, avg)] |}.

Definition no_avg_table : DataFrame :=
  {| columns := [(py "Question", Text [Some (py "q")]);
                 (py "Score", Numeric [1%float])] |}.

Definition three_files : Folder :=
  [(py "ann.csv", inr (table (ones 21)));
   (py "bob.csv", inr {| columns := [(py "Score", Numeric [1%float])] |});
   (py "eve.csv", inr (table (ones 21)))].

Definition two_files : Folder :=
  [(py "bad.csv", inl ParserError); (py "ann.csv", inr (table (ones 21)))].

(** A column with one missing value among numbers, and one with a text. *)
Definition one_missing : Series := Numeric (NaN :: repeat 1%float 20).
Definition one_text : Series :=
  Text (Some (py "abc") :: repeat (Some (py "1")) 20).

End ProcessSurvey.
Import ProcessSurvey.

(** ** [text_preprocessing.py] *)

Module TextPreprocessing.

Local Open Scope N_scope.

(** *** Character classes *)

(** What Python's Unicode database says beyond ASCII: whether a code point
    is alphanumeric ([str.isalnum]) or white space ([str.isspace]), and
    [str.lower] on a text that is not pure ASCII. *)
Record Unicode : Type := {
  uni_isalnum : pychar -> bool;
  uni_isspace : pychar -> bool;
  uni_lower : pystr -> pystr
}.

Definition is_ascii (c : pychar) : bool := c <? 128.

Definition between (lo hi c : pychar) : bool := (lo <=? c) && (c <=? hi).

(** ['0'..'9'], ['A'..'Z'], ['a'..'z'] *)
Definition ascii_isalnum (c : pychar) : bool :=
  between 48 57 c || between 65 90 c || between 97 122 c.

(** Tab to carriage return, the four separators 0x1C..0x1F, and space. *)
Definition ascii_isspace (c : pychar) : bool :=
  between 9 13 c || between 28 31 c || (c =? 32).

Definition ascii_lower (c : pychar) : pychar :=
  if between 65 90 c then c + 32 else c.

Definition underscore : pychar := 95.
Definition newline : pychar := 10.
Definition lbracket : pychar := 91.
Definition rbracket : pychar := 93.
Definition space : pychar := 32.

Section Stages.
Variable U : Unicode.

Definition isalnum (c : pychar) : bool :=
  if is_ascii c then ascii_isalnum c else uni_isalnum U c.

Definition isspace (c : pychar) : bool :=
  if is_ascii c then ascii_isspace c else uni_isspace U c.

(** The class [\w] of a [str] pattern: alphanumeric, or the underscore. *)
Definition re_w (c : pychar) : bool := isalnum c || (c =? underscore).

(** The class [\s] of a [str] pattern. *)
Definition re_s (c : pychar) : bool := isspace c.

(** [.] without the DOTALL flag: anything but a newline. *)
Definition re_dot (c : pychar) : bool := negb (c =? newline).

(** [s.lower()] *)
Definition str_lower (s : pystr) : pystr :=
  if forallb is_ascii s then map ascii_lower s else uni_lower U s.

(** *** The two substitutions *)

(** The number of code points that [.*?\]] matches at the start of [s]: the
    lazy star takes as few as it can, so the match ends at the first [']'],
    and there is none when a newline or the end of the text comes first. *)
Fixpoint match_lazy_close (s : pystr) : option nat :=
  match s with
  | [] => None
  | c :: r =>
      if c =? rbracket then Some 1%nat
      else if re_dot c then option_map S (match_lazy_close r)
      else None
  end.

(** The length of the match of [\[.*?\]] at the start of [s], if any. *)
Definition match_bracketed (s : pystr) : option nat :=
  match s with
  | c :: r => if c =? lbracket then option_map S (match_lazy_close r) else None
  | [] => None
  end.

(** [re.sub(r'\[.*?\]', '', s)]: the text is scanned from the left; a match
    is dropped and the scan resumes after it.  [skip] counts the code points
    of the current match still to be dropped. *)
Fixpoint sub_bracketed_from (skip : nat) (s : pystr) : pystr :=
  match s with
  | [] => []
  | c :: r =>
      match skip with
      | S k => sub_bracketed_from k r
      | O =>
          match match_bracketed s with
          | Some n => sub_bracketed_from (n - 1) r
          | None => c :: sub_bracketed_from 0 r
          end
      end
  end.

Definition sub_bracketed (s : pystr) : pystr := sub_bracketed_from 0 s.

(** [re.sub(r'[^\w\s]', '', s)]: every code point outside both classes is
    dropped. *)
Definition sub_not_word_space (s : pystr) : pystr :=
  filter (fun c => re_w c || re_s c) s.

(** *** The functions of the module *)

(** A pandas series of texts. *)
Definition TextSeries := list pystr.

(** [series.str.lower()] and [series.str.replace(pat, '', regex=True)] act
    on each text; the second assignment reads [series], not [output]. *)
Definition remove_lower (series : TextSeries) : TextSeries :=
  let output := map str_lower series in
  let output := map sub_bracketed series in
  let output := map sub_not_word_space output in
  output.

(** What the loop over [nlp(text)] reads of a token. *)
Record Token : Type := {
  text : pystr;
  lemma_ : pystr;
  is_stop : bool
}.

(** The spaCy pipeline [nlp]: the tokens of a text. *)
Variable nlp : pystr -> list Token.

Definition token_lemma_nonstop (t : pystr) : pystr :=
  let doc := nlp t in
  let output := map lemma_ (filter (fun token => negb (is_stop token)) doc) in
  join [space] output.

Definition clean_normalize (series : TextSeries) : TextSeries :=
  let output := remove_lower series in
  let output := map token_lemma_nonstop output in
  output.

End Stages.

Arguments text t : rename.

(** *** Stand-ins for the Unicode tables and for the spaCy pipeline *)

(** Tables for texts in ASCII: no code point beyond ASCII is classified. *)
Definition ascii_only : Unicode :=
  {| uni_isalnum := fun _ => false;
     uni_isspace := fun _ => false;
     uni_lower := fun s => s |}.

(** The words of a text, split at spaces; [cur] is the word being read,
    last code point first. *)
Fixpoint words_from (cur : pystr) (s : pystr) : list pystr :=
  match s with
  | [] => match cur with [] => [] | _ => [rev cur] end
  | c :: r =>
      if c =? space
      then match cur with
           | [] => words_from [] r
           | _ => rev cur :: words_from [] r
           end
      else words_from (c :: cur) r
  end.

Definition stop_words : list pystr := [py "the"; py "a"; py "an"; py "and"; py "is"].

(** A small pipeline for examples, not spaCy's: the tokens are the words
    between spaces, a token is its own lemma, and the stop words are the
    five above.  spaCy also makes a token of the white space beyond one
    space between two words, and has its own lemmas and stop words. *)
Definition word_nlp (t : pystr) : list Token :=
  map (fun w => {| text := w; lemma_ := w;
                   is_stop := existsb (str_eqb w) stop_words |})
      (words_from [] t).

Definition great_teacher : pystr := py "Great [TA name] TEACHER!!".

(** A code point the strip keeps: alphanumeric, the underscore, or white
    space. *)
Definition kept (U : Unicode) (c : pychar) : Prop :=
  isalnum U c = true \/ c = underscore \/ isspace U c = true.

End TextPreprocessing.
Import TextPreprocessing.

(** ** [process_teacher_csvs_custom] *)

Module ProcessSurveyCustom.

(** A value stored in a list of [data]: a teacher's name or a mean. *)
Inductive pyval : Type :=
| VStr (s : pystr)
| VFloat (x : pyfloat).

(** A dictionary whose values are lists, keys in insertion order. *)
Definition PyDict : Type := list (pystr * list pyval).

(** [d.get(k)] *)
Fixpoint dict_get (d : PyDict) (k : pystr) : option (list pyval) :=
  match d with
  | [] => None
  | (k', v) :: r => if str_eqb k' k then Some v else dict_get r k
  end.

(** [d[k] = v]: a key already present keeps its place and takes the new
    value; a new key goes last. *)
Fixpoint dict_set (d : PyDict) (k : pystr) (v : list pyval) : PyDict :=
  match d with
  | [] => [(k, v)]
  | (k', v') :: r =>
      if str_eqb k' k then (k', v) :: r else (k', v') :: dict_set r k v
  end.

(** The argument [row_ranges]: for each metric, in order, the bounds
    [(start, end)] of its slice.  A Python dictionary has each key once. *)
Definition RowRanges : Type := list (pystr * (Z * Z)).

(** The example of the docstring. *)
Definition default_ranges : RowRanges :=
  [(py "Instructor_Skill", (0, 5)%Z);
   (py "Interaction", (5, 11)%Z);
   (py "Student_Motivation", (11, 15)%Z);
   (py "Course_Organization", (15, 21)%Z)].

(** The position a slice bound stands for in a series of [n] rows: a
    negative bound counts from the end, and every bound is brought back
    into [0..n]. *)
Definition slice_index (n : nat) (i : Z) : nat :=
  if (i <? 0)%Z then Z.to_nat (Z.max 0 (Z.of_nat n + i))
  else Nat.min (Z.to_nat i) n.

(** [s.iloc[start:stop]] for integer bounds of either sign. *)
Definition iloc_slice (s : Series) (start stop : Z) : Series :=
  iloc s (slice_index (size s) start) (slice_index (size s) stop).

(** The one line the function can print. *)
Inductive cline : Type :=
| NotEnoughRowsError (csv_file : pystr).

(** A computation that reads and updates [data], prints, and returns or
    raises; [data] is as the computation left it in both cases. *)
Definition ST (A : Type) : Type := PyDict -> PyDict * M cline A.

Definition sret {A} (a : A) : ST A := fun d => (d, ret a).

Definition sbind {A B} (m : ST A) (k : A -> ST B) : ST B :=
  fun d =>
    match m d with
    | (d', (out, inl e)) => (d', (out, inl e))
    | (d', (out, inr a)) =>
        let '(d'', (out', r)) := k a d' in (d'', (out ++ out', r))
    end.

Definition lift {A} (m : M cline A) : ST A := fun d => (d, m).

(** [data[k].append(v)] *)
Definition list_append (k : pystr) (v : pyval) : ST unit :=
  fun d =>
    match dict_get d k with
    | Some l => (dict_set d k (l ++ [v]), ret tt)
    | None => (d, raise KeyError)
    end.

(** [data[k].pop()]: popping from an empty list raises [IndexError]. *)
Definition list_pop (k : pystr) : ST unit :=
  fun d =>
    match dict_get d k with
    | Some [] => (d, raise IndexError)
    | Some l => (dict_set d k (removelast l), ret tt)
    | None => (d, raise KeyError)
    end.

(** [try: body  except IndexError: handler], the handler starting from
    [data] as the body left it. *)
Definition s_try_except_IndexError {A} (body handler : ST A) : ST A :=
  fun d =>
    match body d with
    | (d', (out, inl IndexError)) =>
        let '(d'', (out', r)) := handler d' in (d'', (out ++ out', r))
    | other => other
    end.

Notation "x <-- c ;; k" := (sbind c (fun x => k))
  (at level 61, c at next level, right associativity) : py_scope.
Notation "c ;;;; k" := (sbind c (fun _ => k))
  (at level 61, right associativity) : py_scope.

Definition read_table (file : exn + DataFrame) : M cline DataFrame :=
  match file with
  | inl e => raise e
  | inr df => ret df
  end.

Definition Name_key : pystr := py "Name".

Section Code.
Context {S : Summation}.

(** [for metric, (start, end) in row_ranges.items(): ...] *)
Fixpoint for_items (items : RowRanges) (df : DataFrame) : ST unit :=
  match items with
  | [] => sret tt
  | (metric, (start, stop)) :: rest =>
      avg <-- lift (getitem df AVG) ;;
      avg_value <-- lift (mean (iloc_slice avg start stop)) ;;
      list_append metric (VFloat avg_value) ;;;;
      for_items rest df
  end.

(** The [try] block: the name is appended first, then one mean per metric. *)
Definition custom_try_body (name : pystr) (row_ranges : RowRanges)
           (df : DataFrame) : ST unit :=
  list_append Name_key (VStr name) ;;;;
  for_items row_ranges df.

(** The handler: the message, then the last name is removed. *)
Definition custom_handler (csv_file : pystr) : ST unit :=
  lift (print (NotEnoughRowsError csv_file)) ;;;;
  list_pop Name_key.

(** One iteration of [for csv_file in csv_files]. *)
Definition custom_loop_body (row_ranges : RowRanges) (e : entry) : ST unit :=
  let '(csv_file, file) := e in
  let name := str_replace csv_file dot_csv [] in
  df <-- lift (read_table file) ;;
  if negb (has_column AVG df) then sret tt
  else
    s_try_except_IndexError (custom_try_body name row_ranges df)
                            (custom_handler csv_file).

Fixpoint custom_for_each (row_ranges : RowRanges) (csv_files : list entry)
  : ST unit :=
  match csv_files with
  | [] => sret tt
  | e :: rest =>
      custom_loop_body row_ranges e ;;;;
      custom_for_each row_ranges rest
  end.

(** [{'Name': [], **{metric: [] for metric in row_ranges.keys()}}] *)
Definition initial_data (row_ranges : RowRanges) : PyDict :=
  fold_left (fun d metric => dict_set d metric []) (map fst row_ranges)
            [(Name_key, [])].

(** The values of a dictionary are lists of one length. *)
Definition same_lengths (d : PyDict) : bool :=
  match d with
  | [] => true
  | (_, v) :: r => forallb (fun c => length (snd c) =? length v)%nat r
  end.

(** [pd.DataFrame(data)] on a dictionary of lists: its columns are the
    lists, in the order of the keys; lists of different lengths raise
    [ValueError]. *)
Definition pd_DataFrame_of_dict (data : PyDict) : M cline PyDict :=
  if same_lengths data then ret data else raise ValueError.

Definition process_teacher_csvs_custom (folder : Folder) (row_ranges : RowRanges)
  : M cline PyDict :=
  let data := initial_data row_ranges in
  let csv_files := csv_files_of folder in
  let '(data, loop) := custom_for_each row_ranges csv_files data in
  loop ;;; pd_DataFrame_of_dict data.

End Code.

(** The table with the columns of the rows [rs], named as in
    [process_teacher_csvs]. *)
Definition table_of_rows (rs : list TeacherRecord) : PyDict :=
  [(Name_key, map (fun r => VStr (teacher_name r)) rs);
   (py "Instructor_Skill", map (fun r => VFloat (instructor_skill r)) rs);
   (py "Interaction", map (fun r => VFloat (interaction r)) rs);
   (py "Student_Motivation", map (fun r => VFloat (student_motivation r)) rs);
   (py "Course_Organization", map (fun r => VFloat (course_organization r)) rs)].

End ProcessSurveyCustom.
Import ProcessSurveyCustom.

(** ** What a run amounts to *)

Module RunSummary.

(** What one ".csv" file brings to a run: the exception that ends it, or
    the records it adds: none for a table without an "AVG" column, one for
    a column of numbers; a column held as text ends the run with the
    [TypeError] of the first mean. *)
Definition entry_result {S : Summation} (e : entry) : exn + list TeacherRecord :=
  match snd e with
  | inl x => inl x
  | inr df =>
      match column AVG df with
      | None => inr []
      | Some (Numeric vs) => inr [band_record (str_replace (fst e) dot_csv []) vs]
      | Some (Text _) => inl TypeError
      end
  end.

(** The records of a list of files, in order, up to the first exception. *)
Fixpoint collect {S : Summation} (csv_files : list entry)
  : exn + list TeacherRecord :=
  match csv_files with
  | [] => inr []
  | e :: rest =>
      match entry_result e with
      | inl x => inl x
      | inr rs =>
          match collect rest with
          | inl x => inl x
          | inr rs' => inr (rs ++ rs')
          end
      end
  end.

(** The results of two runs, one after the other. *)
Definition and_then (a b : exn + list TeacherRecord) : exn + list TeacherRecord :=
  match a with
  | inl x => inl x
  | inr ra =>
      match b with
      | inl x => inl x
      | inr rb => inr (ra ++ rb)
      end
  end.

End RunSummary.
Import RunSummary.

(** ** What a run of [process_teacher_csvs_custom] amounts to *)

Module CustomSummary.

(** Every mean that [row_ranges] asks for is defined on the column: it is a
    column of numbers, or there is no metric at all. *)
Definition means_defined (row_ranges : RowRanges) (avg : Series) : bool :=
  match avg, row_ranges with
  | Text _, _ :: _ => false
  | _, _ => true
  end.

(** What one ".csv" file brings to a run: the exception that ends it, or
    the name and the "AVG" column of the table, nothing for a table
    without the column. *)
Definition custom_entry_result (row_ranges : RowRanges) (e : entry)
  : exn + list (pystr * Series) :=
  match snd e with
  | inl x => inl x
  | inr df =>
      match column AVG df with
      | None => inr []
      | Some avg =>
          if means_defined row_ranges avg
          then inr [(str_replace (fst e) dot_csv [], avg)]
          else inl TypeError
      end
  end.

Fixpoint custom_collect (row_ranges : RowRanges) (csv_files : list entry)
  : exn + list (pystr * Series) :=
  match csv_files with
  | [] => inr []
  | e :: rest =>
      match custom_entry_result row_ranges e with
      | inl x => inl x
      | inr fs =>
          match custom_collect row_ranges rest with
          | inl x => inl x
          | inr fs' => inr (fs ++ fs')
          end
      end
  end.

(** The mean of the slice [start:stop] of a column of numbers. *)
Definition slice_mean {S : Summation} (avg : Series) (start stop : Z) : pyfloat :=
  match iloc_slice avg start stop with
  | Numeric vs => nanmean vs
  | Text _ => NaN
  end.

(** The means of the slice [start:stop] of the columns of [files]. *)
Definition metric_column {S : Summation} (files : list (pystr * Series))
           (start stop : Z) : list pyval :=
  map (fun f => VFloat (slice_mean (snd f) start stop)) files.

Definition metric_columns {S : Summation} (row_ranges : RowRanges)
           (files : list (pystr * Series)) : PyDict :=
  map (fun r => (fst r, metric_column files (fst (snd r)) (snd (snd r))))
      row_ranges.

(** The table of the names and of one column of means for each metric. *)
Definition custom_table {S : Summation} (row_ranges : RowRanges)
           (files : list (pystr * Series)) : PyDict :=
  (Name_key, map (fun f => VStr (fst f)) files) :: metric_columns row_ranges files.

(** The list under "Name" when a metric is called "Name" too: for each file
    its name, then the mean of the slice of that metric. *)
Definition name_and_mean {S : Summation} (start stop : Z)
           (files : list (pystr * Series)) : list pyval :=
  flat_map (fun f => [VStr (fst f); VFloat (slice_mean (snd f) start stop)]) files.

(** The dictionary built when [row_ranges] is [pre], then a metric
    "Name" over [start:stop], then [post]. *)
Definition collision_table {S : Summation} (pre : RowRanges) (start stop : Z)
           (post : RowRanges) (files : list (pystr * Series)) : PyDict :=
  (Name_key, name_and_mean start stop files) :: metric_columns (pre ++ post) files.

(** The numbers of a column, none for a column held as text. *)
Definition numbers_of (avg : Series) : list pyfloat :=
  match avg with
  | Numeric vs => vs
  | Text _ => []
  end.

(** The record [process_teacher_csvs] builds for a name and a column. *)
Definition record_of_file {S : Summation} (f : pystr * Series) : TeacherRecord :=
  band_record (fst f) (numbers_of (snd f)).

(** Two metrics, the first over the last rows but one of the column. *)
Definition sample_ranges : RowRanges :=
  [(py "Late", (-3, -1)%Z); (py "Early", (0, 5)%Z)].

(** One metric over rows that a short column does not have. *)
Definition late_ranges : RowRanges := [(py "A", (5, 9)%Z)].

(** A column of three texts. *)
Definition short_text : Series :=
  Text [Some (py "x"); Some (py "y"); Some (py "z")].

(** A table of 1, ..., 21, a table without "AVG", a table of ones. *)
Definition counted_files : Folder :=
  [(py "ann.csv", inr (table (Numeric (count_up 21))));
   (py "bob.csv", inr no_avg_table);
   (py "eve.csv", inr (table (ones 21)))].

(** A result that printed nothing and is not an [IndexError]. *)
Definition quiet {A} (r : PyDict * M cline A) : Prop :=
  stdout (snd r) = [] /\ outcome (snd r) <> inl IndexError.

End CustomSummary.
Import CustomSummary.

(** ** What [remove_lower] makes of one text *)

Module TextSummary.

(** The text [remove_lower] returns for the text [t]: the bracket
    substitution, then the punctuation strip. *)
Definition clean_text (U : Unicode) (t : pystr) : pystr :=
  sub_not_word_space U (sub_bracketed t).

(** [t.split(' ')]: the pieces of [t] between its spaces, an empty piece
    between two spaces that follow each other and before or after a space
    at either end; [cur] is the piece being read, last code point first. *)
Fixpoint split_from (cur : pystr) (t : pystr) : list pystr :=
  match t with
  | [] => [rev cur]
  | c :: r =>
      if N.eqb c space then rev cur :: split_from [] r
      else split_from (c :: cur) r
  end.

Definition split_space (t : pystr) : list pystr := split_from [] t.

End TextSummary.
Import TextSummary.

(** * Properties of [process_teacher_csvs] *)

Module SurveyFacts.

(** *** Small runs *)

Example run_21_rows :
  outcome (process_teacher_csvs (S := sequential)
             [(py "ann.csv", inr (table (ones 21)))])
  = inr [{| teacher_name := py "ann"; instructor_skill := 1%float;
            interaction := 1%float; student_motivation := 1%float;
            course_organization := 1%float |}].
Proof. vm_compute. reflexivity. Qed.

Example run_skips_other_files :
  outcome (process_teacher_csvs (S := sequential)
             [(py "notes.txt", inl OSError); (py "ann.csv", inr (table (ones 21)))])
  = outcome (process_teacher_csvs (S := sequential)
               [(py "ann.csv", inr (table (ones 21)))]).
Proof. vm_compute. reflexivity. Qed.

(** *** The monad, as far as the proofs need it *)

Section MonadFacts.
Context {Ev A B : Type}.

Lemma outcome_bind (m : M Ev A) (k : A -> M Ev B) :
  outcome (bind m k)
  = match outcome m with
    | inl e => inl e
    | inr a => outcome (k a)
    end.
Proof.
  destruct m as [out [e|a]]; simpl; [reflexivity|].
  destruct (k a); reflexivity.
Qed.

Lemma stdout_bind (m : M Ev A) (k : A -> M Ev B) :
  stdout (bind m k)
  = match outcome m with
    | inl _ => stdout m
    | inr a => stdout m ++ stdout (k a)
    end.
Proof.
  destruct m as [out [e|a]]; simpl; [reflexivity|].
  destruct (k a); reflexivity.
Qed.

Lemma stdout_outcome (m : M Ev A) : m = (stdout m, outcome m).
Proof. destruct m; reflexivity. Qed.

End MonadFacts.

Lemma try_except_no_IndexError {Ev A} (body h : M Ev A) :
  outcome body <> inl IndexError -> try_except_IndexError body h = body.
Proof.
  destruct body as [out [[]|a]]; simpl; intros H; try reflexivity.
  now elim H.
Qed.

(** *** The [try] block *)

Lemma has_column_column (name : pystr) (df : DataFrame) :
  has_column name df = true <-> exists s, column name df = Some s.
Proof.
  unfold has_column, column. induction (columns df) as [|[n s] l IH]; simpl.
  - split; [discriminate|intros [s H]; discriminate].
  - destruct (str_eqb n name); simpl; [|exact IH].
    split; [intros _; now exists s|reflexivity].
Qed.

Lemma column_None (df : DataFrame) :
  column AVG df = None -> has_column AVG df = false.
Proof.
  intros C. destruct (has_column AVG df) eqn:H; [|reflexivity].
  apply has_column_column in H as [s H]. congruence.
Qed.

Section Iteration.
Context {S : Summation}.

Lemma try_body_missing_column (data : Data) (name : pystr) (df : DataFrame) :
  column AVG df = None -> try_body data name df = ([], inl KeyError).
Proof. intros H. unfold try_body, getitem. rewrite H. reflexivity. Qed.

Lemma try_body_numbers (data : Data) (name : pystr) (df : DataFrame)
      (vs : list pyfloat) :
  column AVG df = Some (Numeric vs) ->
  try_body data name df
  = (processed_lines (band_record name vs), inr (append data (band_record name vs))).
Proof. intros C. unfold try_body, getitem. rewrite C. reflexivity. Qed.

Lemma try_body_text (data : Data) (name : pystr) (df : DataFrame)
      (ts : list (option pystr)) :
  column AVG df = Some (Text ts) ->
  try_body data name df = ([], inl TypeError).
Proof. intros C. unfold try_body, getitem. rewrite C. reflexivity. Qed.

Lemma try_body_outcomes (data : Data) (name : pystr) (df : DataFrame) :
  try_body data name df = ([], inl KeyError)
  \/ try_body data name df = ([], inl TypeError)
  \/ exists r, try_body data name df = (processed_lines r, inr (append data r)).
Proof.
  destruct (column AVG df) as [[vs|ts]|] eqn:C.
  - right; right. eexists. apply (try_body_numbers _ _ _ _ C).
  - right; left. apply (try_body_text _ _ _ _ C).
  - left. apply (try_body_missing_column _ _ _ C).
Qed.

(** *** One iteration *)

Lemma loop_body_load_failure (data : Data) (csv_file : pystr) (e : exn) :
  loop_body data (csv_file, inl e) = ([], inl e).
Proof. reflexivity. Qed.

Lemma loop_body_no_AVG (data : Data) (csv_file : pystr) (df : DataFrame) :
  has_column AVG df = false ->
  loop_body data (csv_file, inr df) = ([WarnNoAVG csv_file], inr data).
Proof. intros H. unfold loop_body. cbn [read_csv bind ret]. rewrite H. reflexivity. Qed.

Lemma loop_body_numbers (data : Data) (csv_file : pystr) (df : DataFrame)
      (vs : list pyfloat) :
  column AVG df = Some (Numeric vs) ->
  let r := band_record (str_replace csv_file dot_csv []) vs in
  loop_body data (csv_file, inr df) = (processed_lines r, inr (append data r)).
Proof.
  intros C r. unfold loop_body. cbn [read_csv bind ret].
  assert (H : has_column AVG df = true) by (apply has_column_column; eauto).
  rewrite H. cbn [negb].
  rewrite (try_body_numbers _ _ _ _ C). reflexivity.
Qed.

Lemma loop_body_text (data : Data) (csv_file : pystr) (df : DataFrame)
      (ts : list (option pystr)) :
  column AVG df = Some (Text ts) ->
  loop_body data (csv_file, inr df) = ([], inl TypeError).
Proof.
  intros C. unfold loop_body. cbn [read_csv bind ret].
  assert (H : has_column AVG df = true) by (apply has_column_column; eauto).
  rewrite H. cbn [negb].
  rewrite (try_body_text _ _ _ _ C). reflexivity.
Qed.

Lemma loop_body_cases (data : Data) (csv_file : pystr) (file : exn + DataFrame) :
  step_result data csv_file (loop_body data (csv_file, file)).
Proof.
  destruct file as [e|df].
  - rewrite loop_body_load_failure.
    destruct e; try (apply step_raise; discriminate). apply step_load_IndexError.
  - destruct (column AVG df) as [[vs|ts]|] eqn:C.
    + rewrite (loop_body_numbers _ _ _ _ C). apply step_record.
    + rewrite (loop_body_text _ _ _ _ C). apply step_raise. discriminate.
    + rewrite (loop_body_no_AVG _ _ _ (column_None _ C)). apply step_skip.
Qed.

(** An iteration that returns [data] as it was has met a table without
    an "AVG" column. *)
Lemma loop_body_unchanged (data : Data) (e : entry) :
  outcome (loop_body data e) = inr data ->
  exists df, snd e = inr df /\ has_column AVG df = false.
Proof.
  destruct e as [f [x|df]]; intros H; [discriminate H|].
  exists df. split; [reflexivity|].
  destruct (column AVG df) as [[vs|ts]|] eqn:C.
  - rewrite (loop_body_numbers _ _ _ _ C) in H. cbn [outcome snd] in H.
    injection H as H. apply (f_equal (fun d => length (Name d))) in H.
    cbn [append Name] in H. rewrite length_app in H. cbn [length] in H. lia.
  - rewrite (loop_body_text _ _ _ _ C) in H. discriminate H.
  - apply column_None, C.
Qed.

(** *** The loop and the result table *)

Lemma for_each_cons (e : entry) (rest : list entry) (data : Data) :
  for_each (e :: rest) data = bind (loop_body data e) (for_each rest).
Proof. reflexivity. Qed.

End Iteration.

Lemma rows_snoc (n : list pystr) (a b c d : list pyfloat)
      (rs : list TeacherRecord) (r : TeacherRecord) :
  rows n a b c d = Some rs ->
  rows (n ++ [teacher_name r]) (a ++ [instructor_skill r]) (b ++ [interaction r])
       (c ++ [student_motivation r]) (d ++ [course_organization r])
  = Some (rs ++ [r]).
Proof.
  revert a b c d rs.
  induction n as [|x n IH]; intros [|y a] [|z b] [|u c] [|v d] rs H;
    simpl in H; try discriminate.
  - injection H as <-. destruct r; reflexivity.
  - destruct (rows n a b c d) as [rs'|] eqn:E; simpl in H; [|discriminate].
    injection H as <-. simpl. rewrite (IH _ _ _ _ _ E). reflexivity.
Qed.

Lemma rows_of_append (data : Data) (rs : list TeacherRecord) (r : TeacherRecord) :
  rows_of data = Some rs -> rows_of (append data r) = Some (rs ++ [r]).
Proof. unfold rows_of, append. simpl. apply rows_snoc. Qed.

Section Loop.
Context {S : Summation}.

(** The five lists stay of one length: the loop only ever adds whole records. *)
Lemma for_each_rows (csv_files : list entry) (data data' : Data)
      (rs : list TeacherRecord) :
  rows_of data = Some rs ->
  outcome (for_each csv_files data) = inr data' ->
  exists rs', rows_of data' = Some (rs ++ rs').
Proof.
  revert data rs. induction csv_files as [|[f file] rest IH]; intros data rs R H.
  - simpl in H. injection H as <-. exists []. now rewrite app_nil_r.
  - rewrite for_each_cons, outcome_bind in H.
    destruct (loop_body_cases data f file) as [e _| | |r]; simpl in H;
      try discriminate.
    + exact (IH _ _ R H).
    + destruct (IH _ _ (rows_of_append _ _ r R) H) as [rs' E].
      exists (r :: rs'). now rewrite E, <- app_assoc.
Qed.

Lemma outcome_process (folder : Folder) :
  outcome (process_teacher_csvs folder)
  = match outcome (for_each (csv_files_of folder) empty_data) with
    | inl e => inl e
    | inr data =>
        match rows_of data with
        | Some rs => inr rs
        | None => inl ValueError
        end
    end.
Proof.
  unfold process_teacher_csvs.
  rewrite !outcome_bind. cbn [print outcome snd].
  destruct (outcome (for_each (csv_files_of folder) empty_data)) as [e|data];
    [reflexivity|].
  rewrite outcome_bind. unfold pd_DataFrame.
  destruct (rows_of data); reflexivity.
Qed.

(** What a run that raises in the loop has printed. *)
Lemma stdout_process_raise (folder : Folder) (e : exn) :
  outcome (for_each (csv_files_of folder) empty_data) = inl e ->
  stdout (process_teacher_csvs folder)
  = FoundFiles (length (csv_files_of folder)) :: Rule
    :: stdout (for_each (csv_files_of folder) empty_data).
Proof.
  intros H. unfold process_teacher_csvs.
  repeat (rewrite stdout_bind; cbn [print outcome stdout fst snd]).
  rewrite H. reflexivity.
Qed.

(** [pd.DataFrame(data)] never fails at the end of a run. *)
Lemma process_never_ValueError (folder : Folder) (data : Data) :
  outcome (for_each (csv_files_of folder) empty_data) = inr data ->
  exists rs, rows_of data = Some rs
             /\ outcome (process_teacher_csvs folder) = inr rs.
Proof.
  intros H. destruct (for_each_rows _ empty_data data [] eq_refl H) as [rs E].
  exists rs. split; [exact E|]. rewrite outcome_process, H, E. reflexivity.
Qed.

Lemma csv_files_of_app (pre post : Folder) :
  csv_files_of (pre ++ post) = csv_files_of pre ++ csv_files_of post.
Proof. apply filter_app. Qed.

Lemma for_each_app (pre post : list entry) (data : Data) :
  outcome (for_each (pre ++ post) data)
  = match outcome (for_each pre data) with
    | inl e => inl e
    | inr data' => outcome (for_each post data')
    end.
Proof.
  revert data. induction pre as [|e pre IH]; intros data; [reflexivity|].
  cbn [app]. rewrite !for_each_cons, !outcome_bind.
  destruct (outcome (loop_body data e)) as [x|data']; [reflexivity|apply IH].
Qed.

Lemma stdout_for_each_app (pre post : list entry) (data : Data) :
  stdout (for_each (pre ++ post) data)
  = match outcome (for_each pre data) with
    | inl _ => stdout (for_each pre data)
    | inr data' => stdout (for_each pre data) ++ stdout (for_each post data')
    end.
Proof.
  revert data. induction pre as [|e pre IH]; intros data; [reflexivity|].
  cbn [app]. rewrite !for_each_cons, !stdout_bind, !outcome_bind.
  destruct (outcome (loop_body data e)) as [x|data']; [reflexivity|].
  rewrite IH. destruct (outcome (for_each pre data')); [reflexivity|].
  now rewrite app_assoc.
Qed.

(** A file on which the iteration raises ends the loop with an exception,
    whatever comes before or after it. *)
Lemma for_each_raising (csv_files : list entry) (x : entry) (e : exn)
      (data : Data) :
  (forall d, outcome (loop_body d x) = inl e) ->
  In x csv_files ->
  exists e', outcome (for_each csv_files data) = inl e'.
Proof.
  intros R. revert data.
  induction csv_files as [|y rest IH]; intros data H; [destruct H|].
  rewrite for_each_cons, outcome_bind.
  destruct H as [->|H].
  - exists e. now rewrite R.
  - destruct (outcome (loop_body data y)) as [e'|data'].
    + now exists e'.
    + apply IH, H.
Qed.

(** The loop stops at a file on which the iteration raises, when it gets to it:
    it raises that exception, having printed the lines of the files before. *)
Lemma for_each_stops (pre post : list entry) (x : entry) (e : exn)
      (data data' : Data) :
  (forall d, loop_body d x = ([], inl e)) ->
  outcome (for_each pre data) = inr data' ->
  for_each (pre ++ x :: post) data = (stdout (for_each pre data), inl e).
Proof.
  intros R H. rewrite (stdout_outcome (for_each (pre ++ x :: post) data)).
  rewrite stdout_for_each_app, for_each_app, H.
  rewrite for_each_cons, stdout_bind, outcome_bind, R.
  cbn [outcome stdout fst snd]. now rewrite app_nil_r.
Qed.

Lemma for_each_skip (pre post : list entry) (e : entry) (data : Data) :
  (forall d, outcome (loop_body d e) = inr d) ->
  outcome (for_each (pre ++ e :: post) data) = outcome (for_each (pre ++ post) data).
Proof.
  intros H. rewrite !for_each_app.
  destruct (outcome (for_each pre data)) as [x|data']; [reflexivity|].
  rewrite for_each_cons, outcome_bind, H. reflexivity.
Qed.

(** *** A run as the records of its files *)

(** The loop, started from any well-formed [data], adds what [collect]
    lists, or raises what [collect] raises. *)
Lemma for_each_collect (csv_files : list entry) (data : Data)
      (rs : list TeacherRecord) :
  rows_of data = Some rs ->
  match collect csv_files with
  | inl x => outcome (for_each csv_files data) = inl x
  | inr rs' =>
      exists data', outcome (for_each csv_files data) = inr data'
                    /\ rows_of data' = Some (rs ++ rs')
  end.
Proof.
  revert data rs. induction csv_files as [|[f file] rest IH]; intros data rs R.
  - cbn. exists data. now rewrite app_nil_r.
  - rewrite for_each_cons, outcome_bind. cbn [collect].
    unfold entry_result. cbn [fst snd].
    destruct file as [x|df]; [reflexivity|].
    destruct (column AVG df) as [[vs|ts]|] eqn:C.
    + rewrite (loop_body_numbers _ _ _ _ C). cbn [outcome snd].
      specialize (IH _ _ (rows_of_append data rs
                            (band_record (str_replace f dot_csv []) vs) R)).
      destruct (collect rest) as [x|rs']; [exact IH|].
      destruct IH as (data' & E & R'). exists data'. split; [exact E|].
      rewrite R', <- app_assoc. reflexivity.
    + rewrite (loop_body_text _ _ _ _ C). reflexivity.
    + rewrite (loop_body_no_AVG _ _ _ (column_None _ C)). cbn [outcome snd].
      specialize (IH _ _ R). destruct (collect rest) as [x|rs']; exact IH.
Qed.

Lemma outcome_collect (folder : Folder) :
  outcome (process_teacher_csvs folder) = collect (csv_files_of folder).
Proof.
  rewrite outcome_process.
  pose proof (for_each_collect (csv_files_of folder) empty_data [] eq_refl) as H.
  destruct (collect (csv_files_of folder)) as [x|rs].
  - rewrite H. reflexivity.
  - destruct H as (data' & -> & ->). reflexivity.
Qed.

Lemma collect_app (pre post : list entry) :
  collect (pre ++ post) = and_then (collect pre) (collect post).
Proof.
  induction pre as [|e pre IH]; cbn [app collect and_then].
  - destruct (collect post); reflexivity.
  - rewrite IH. destruct (entry_result e) as [x|rs]; [reflexivity|].
    unfold and_then.
    destruct (collect pre) as [x|ra]; [reflexivity|].
    destruct (collect post) as [x|rb]; [reflexivity|].
    now rewrite app_assoc.
Qed.

(** A file with a column of numbers has its record among those collected. *)
Lemma collect_In (csv_files : list entry) (rs : list TeacherRecord)
      (f : pystr) (df : DataFrame) (vs : list pyfloat) :
  collect csv_files = inr rs ->
  In (f, inr df) csv_files ->
  column AVG df = Some (Numeric vs) ->
  In (band_record (str_replace f dot_csv []) vs) rs.
Proof.
  revert rs. induction csv_files as [|e rest IH]; intros rs H I C; [destruct I|].
  cbn [collect] in H.
  destruct (entry_result e) as [x|r1] eqn:E; [discriminate H|].
  destruct (collect rest) as [x|r2]; [discriminate H|].
  injection H as <-. apply in_or_app.
  destruct I as [->|I].
  - left. unfold entry_result in E. cbn [fst snd] in E. rewrite C in E.
    injection E as <-. now left.
  - right. now apply IH.
Qed.

(** *** Slices and rows *)

Lemma skipn_nth_cons {A} (d : A) (l : list A) (i : nat) :
  i < length l -> skipn i l = nth i l d :: skipn (Datatypes.S i) l.
Proof.
  revert i. induction l as [|c l IH]; intros i H; simpl in H; [lia|].
  destruct i as [|i]; [reflexivity|].
  cbn [skipn nth]. rewrite IH by lia. reflexivity.
Qed.

Lemma firstn_skipn_rows {A} (d : A) (l : list A) (n start : nat) :
  firstn n (skipn start l)
  = map (fun i => nth i l d) (seq start (Nat.min n (length l - start))).
Proof.
  revert start. induction n as [|n IH]; intros start; [reflexivity|].
  destruct (Nat.lt_ge_cases start (length l)) as [H|H].
  - rewrite (skipn_nth_cons d) by exact H. cbn [firstn]. rewrite IH.
    replace (length l - start) with (Datatypes.S (length l - Datatypes.S start)) by lia.
    reflexivity.
  - rewrite skipn_all2 by exact H.
    replace (length l - start) with 0 by lia. reflexivity.
Qed.

(** A slice lists the rows of its range that the column has. *)
Lemma slice_rows_found (vs : list pyfloat) (start stop : nat) :
  slice vs start stop = rows_found vs start stop.
Proof.
  unfold slice, rows_found, row_value. rewrite (firstn_skipn_rows NaN).
  do 2 f_equal. lia.
Qed.

(** A slice that lies inside the column lists the rows of its range. *)
Lemma slice_band_rows (vs : list pyfloat) (start stop : nat) :
  stop <= length vs -> slice vs start stop = band_rows vs start stop.
Proof.
  intros H. rewrite slice_rows_found. unfold rows_found, band_rows.
  now rewrite Nat.min_l.
Qed.

Lemma present_all (l : list pyfloat) :
  forallb (fun x => negb (isnan x)) l = true -> present l = l.
Proof.
  unfold present. induction l as [|x l IH]; intros H; [reflexivity|].
  cbn [forallb] in H. apply andb_true_iff in H as [X H].
  cbn [filter]. rewrite X, IH by exact H. reflexivity.
Qed.

Lemma length_present (l : list pyfloat) : length (present l) = count_present l.
Proof.
  unfold present. induction l as [|x l IH]; [reflexivity|].
  cbn [filter count_present fold_right].
  destruct (isnan x); cbn [negb length]; fold (count_present l); now rewrite IH.
Qed.

Lemma nanmean_mean_of_present (l : list pyfloat) :
  nanmean l = mean_of_present l.
Proof.
  unfold nanmean, mean_of_present. rewrite <- length_present.
  destruct (present l); reflexivity.
Qed.

Lemma present_row (vs : list pyfloat) (i : nat) :
  forallb (fun x => negb (isnan x)) (firstn 21 vs) = true ->
  21 <= length vs -> i < 21 ->
  negb (isnan (row_value vs i)) = true.
Proof.
  intros F L I.
  assert (N : negb (isnan (nth i (firstn 21 vs) NaN)) = true).
  { apply (proj1 (forallb_forall _ _) F). apply nth_In.
    rewrite length_firstn. lia. }
  rewrite nth_firstn in N. apply Nat.ltb_lt in I. now rewrite I in N.
Qed.

(** On a valid table the mean over a band inside rows 0..20 is the float sum
    of its rows over their number. *)
Lemma valid_band (df : DataFrame) (vs : list pyfloat) (start stop : nat) :
  valid_table df vs -> start < stop <= 21 ->
  nanmean (slice vs start stop) = band_mean vs start stop.
Proof.
  intros (_ & L & F) B.
  rewrite slice_band_rows by lia.
  assert (P : present (band_rows vs start stop) = band_rows vs start stop).
  { apply present_all, forallb_forall. intros x X.
    apply in_map_iff in X as (i & <- & I). apply in_seq in I.
    apply present_row; trivial. lia. }
  unfold nanmean, band_mean, float_mean. rewrite P.
  destruct (band_rows vs start stop) eqn:E; [|reflexivity].
  apply (f_equal (@length _)) in E. unfold band_rows in E.
  rewrite length_map, length_seq in E. cbn in E. lia.
Qed.

Lemma same_band_mean (vs vs' : list pyfloat) (start stop : nat) :
  same_band vs vs' start stop ->
  band_mean vs start stop = band_mean vs' start stop.
Proof.
  intros B. unfold band_mean. f_equal. apply map_ext_in.
  intros i I. apply in_seq in I. unfold row_value. rewrite B by lia. reflexivity.
Qed.

(** A run over a single file whose "AVG" column holds numbers. *)
Lemma single_file_run (csv_file : pystr) (df : DataFrame) (vs : list pyfloat) :
  endswith csv_file dot_csv = true ->
  column AVG df = Some (Numeric vs) ->
  produces csv_file df (band_record (str_replace csv_file dot_csv []) vs).
Proof.
  intros E C. unfold produces. rewrite outcome_process.
  unfold csv_files_of. cbn [filter fst]. rewrite E.
  rewrite for_each_cons, outcome_bind, (loop_body_numbers _ _ _ _ C).
  reflexivity.
Qed.

End Loop.

(** *** The band means of a valid table *)

(** C1, as amended: for a table with an "AVG" column of numbers whose first
    21 rows are present, the record the aggregator produces holds, for rows
    [0,5), [5,11), [11,15) and [15,21), the float sum of the rows of the band
    divided by their number; a metric is the same for any two such tables
    that agree on the rows of its band. *)
Theorem C1_band_means {S : Summation} (csv_file : pystr) (df : DataFrame)
        (vs : list pyfloat) :
  endswith csv_file dot_csv = true ->
  valid_table df vs ->
  exists r,
    produces csv_file df r
    /\ (forall data, outcome (loop_body data (csv_file, inr df)) = inr (append data r))
    /\ instructor_skill r = band_mean vs 0 5
    /\ interaction r = band_mean vs 5 11
    /\ student_motivation r = band_mean vs 11 15
    /\ course_organization r = band_mean vs 15 21
    /\ forall csv_file' df' vs' r',
         endswith csv_file' dot_csv = true ->
         valid_table df' vs' ->
         produces csv_file' df' r' ->
         (same_band vs vs' 0 5 -> instructor_skill r' = instructor_skill r)
         /\ (same_band vs vs' 5 11 -> interaction r' = interaction r)
         /\ (same_band vs vs' 11 15 -> student_motivation r' = student_motivation r)
         /\ (same_band vs vs' 15 21 -> course_organization r' = course_organization r).
Proof.
  intros E V.
  pose proof (proj1 V) as C.
  exists (band_record (str_replace csv_file dot_csv []) vs).
  split; [apply single_file_run; assumption|].
  split; [intros data; now rewrite (loop_body_numbers _ _ _ _ C)|].
  cbn [band_record instructor_skill interaction student_motivation course_organization].
  rewrite (valid_band df vs 0 5 V ltac:(lia)).
  rewrite (valid_band df vs 5 11 V ltac:(lia)).
  rewrite (valid_band df vs 11 15 V ltac:(lia)).
  rewrite (valid_band df vs 15 21 V ltac:(lia)).
  repeat (split; [reflexivity|]).
  intros csv_file' df' vs' r' E' V' P'.
  pose proof (single_file_run csv_file' df' vs' E' (proj1 V')) as Q'.
  unfold produces in P', Q'. rewrite P' in Q'. injection Q' as ->.
  cbn [band_record instructor_skill interaction student_motivation course_organization].
  rewrite (valid_band df' vs' 0 5 V' ltac:(lia)).
  rewrite (valid_band df' vs' 5 11 V' ltac:(lia)).
  rewrite (valid_band df' vs' 11 15 V' ltac:(lia)).
  rewrite (valid_band df' vs' 15 21 V' ltac:(lia)).
  repeat split; intros B; symmetry; apply same_band_mean; exact B.
Qed.

Lemma C1_band_means_witness :
  exists r,
    produces (S := sequential) (py "ann.csv") (table (Numeric (count_up 21))) r
    /\ instructor_skill r = 3%float
    /\ interaction r = 8.5%float
    /\ student_motivation r = 13.5%float
    /\ course_organization r = 18.5%float.
Proof.
  destruct (C1_band_means (S := sequential) (py "ann.csv")
              (table (Numeric (count_up 21))) (count_up 21))
    as (r & P & _ & I1 & I2 & I3 & I4 & _).
  - vm_compute. reflexivity.
  - split; [reflexivity|split; [vm_compute; lia|vm_compute; reflexivity]].
  - exists r. rewrite I1, I2, I3, I4.
    split; [exact P|]. repeat split; vm_compute; reflexivity.
Defined.

(** C1 (counterexample): on the valid table whose 21 rows all hold the float
    nearest to 0.1 the mean of a band of six rows is 0.09999999999999999,
    in either order of summation, which is not the arithmetic mean of the
    six rows (that is the float itself); on the valid table whose rows all
    hold the float nearest to 1e308 the sum overflows and the metric is
    infinite. *)
Lemma C1_mean_is_rounded :
  valid_table (table (Numeric (repeat tenth 21))) (repeat tenth 21)
  /\ valid_table (table (Numeric (repeat huge 21))) (repeat huge 21)
  /\ is_arithmetic_mean tenth (repeat tenth 6) = true
  /\ (exists r,
        produces (S := sequential) (py "ann.csv")
                 (table (Numeric (repeat tenth 21))) r
        /\ interaction r = 0x1.9999999999999p-4%float
        /\ is_arithmetic_mean (interaction r) (band_rows (repeat tenth 21) 5 11)
           = false)
  /\ (exists r,
        produces (S := first_then_rest) (py "ann.csv")
                 (table (Numeric (repeat tenth 21))) r
        /\ interaction r = 0x1.9999999999999p-4%float
        /\ is_arithmetic_mean (interaction r) (band_rows (repeat tenth 21) 5 11)
           = false)
  /\ (exists r,
        produces (S := sequential) (py "ann.csv")
                 (table (Numeric (repeat huge 21))) r
        /\ instructor_skill r = infinity
        /\ is_arithmetic_mean (instructor_skill r) (band_rows (repeat huge 21) 0 5)
           = false)
  /\ (exists r,
        produces (S := first_then_rest) (py "ann.csv")
                 (table (Numeric (repeat huge 21))) r
        /\ instructor_skill r = infinity).
Proof.
  split; [split; [reflexivity|split; [vm_compute; lia|vm_compute; reflexivity]]|].
  split; [split; [reflexivity|split; [vm_compute; lia|vm_compute; reflexivity]]|].
  split; [vm_compute; reflexivity|].
  repeat split; eexists; (split; [vm_compute; reflexivity|]);
    repeat split; vm_compute; reflexivity.
Qed.

(** *** Short tables *)

(** C2 (evaluation): a table with 20 rows, and a table with none, each still
    yields a row; the slices are shorter or empty and nothing is raised. *)
Theorem C2_short_table_still_emitted :
  outcome (process_teacher_csvs (S := sequential)
             [(py "t.csv", inr (table (ones 20)))])
  = inr [{| teacher_name := py "t"; instructor_skill := 1%float;
            interaction := 1%float; student_motivation := 1%float;
            course_organization := 1%float |}]
  /\ outcome (process_teacher_csvs (S := sequential)
                [(py "t.csv", inr (table (Numeric [])))])
     = inr [{| teacher_name := py "t"; instructor_skill := NaN;
               interaction := NaN; student_motivation := NaN;
               course_organization := NaN |}].
Proof. split; vm_compute; reflexivity. Qed.

(** *** Files that cannot be loaded *)

(** C4, as amended: when [pd.read_csv] fails on a ".csv" file of the
    directory the failure is neither caught nor logged.  The run raises and
    returns no result table, whatever comes before or after the file; the
    iteration prints nothing; when the files before it are processed without
    an exception the run raises that very exception, having printed the two
    header lines and the lines of the files before it only.  The one case
    in which an iteration leaves [data] as it was and goes on is a table
    without an "AVG" column. *)
Theorem C4_load_failure_propagates {S : Summation} (pre post : Folder)
        (csv_file : pystr) (e : exn) :
  endswith csv_file dot_csv = true ->
  let folder := pre ++ (csv_file, inl e) :: post in
  (exists e', outcome (process_teacher_csvs folder) = inl e')
  /\ (forall data, loop_body data (csv_file, inl e) = ([], inl e))
  /\ (forall data,
        outcome (for_each (csv_files_of pre) empty_data) = inr data ->
        process_teacher_csvs folder
        = (FoundFiles (length (csv_files_of folder)) :: Rule
             :: stdout (for_each (csv_files_of pre) empty_data),
           inl e))
  /\ (forall data x,
        outcome (loop_body data x) = inr data ->
        exists df, snd x = inr df /\ has_column AVG df = false).
Proof.
  intros E folder.
  assert (F : csv_files_of folder
              = csv_files_of pre ++ (csv_file, inl e) :: csv_files_of post).
  { unfold folder. rewrite csv_files_of_app. unfold csv_files_of at 2.
    cbn [filter fst]. now rewrite E. }
  split.
  - destruct (for_each_raising (csv_files_of folder) (csv_file, inl e) e empty_data)
      as [e' R].
    + reflexivity.
    + rewrite F. apply in_or_app. right. now left.
    + exists e'. rewrite outcome_process, R. reflexivity.
  - split; [reflexivity|]. split; [|apply loop_body_unchanged].
    intros data H.
    pose proof (for_each_stops (csv_files_of pre) (csv_files_of post)
                  (csv_file, inl e) e empty_data data (fun d => eq_refl) H) as R0.
    assert (R : for_each (csv_files_of folder) empty_data
                = (stdout (for_each (csv_files_of pre) empty_data), inl e))
      by (rewrite F; exact R0).
    rewrite (stdout_outcome (process_teacher_csvs folder)).
    rewrite (stdout_process_raise folder e), outcome_process, R; [reflexivity|].
    now rewrite R.
Qed.

Lemma C4_load_failure_propagates_witness :
  process_teacher_csvs (S := sequential)
    ([(py "ann.csv", inr (table (ones 21)))]
     ++ (py "bad.csv", inl ParserError)
     :: [(py "eve.csv", inr (table (ones 21)))])
  = ([FoundFiles 3; Rule; Processed (py "ann");
      MetricLine (py "Instructor_Skill") 1%float;
      MetricLine (py "Interaction") 1%float;
      MetricLine (py "Student_Motivation") 1%float;
      MetricLine (py "Course_Organization") 1%float;
      Blank],
     inl ParserError).
Proof.
  pose proof (C4_load_failure_propagates (S := sequential)
                [(py "ann.csv", inr (table (ones 21)))]
                [(py "eve.csv", inr (table (ones 21)))]
                (py "bad.csv") ParserError eq_refl) as (_ & _ & H & _).
  refine (eq_trans
            (H (append empty_data
                  (band_record (S := sequential) (py "ann") (repeat 1%float 21))) _)
            _);
    vm_compute; reflexivity.
Defined.

(** C4 (counterexample): one file that cannot be parsed, before or after a
    valid one, makes the whole run raise [ParserError]: no table is returned
    and the valid file has no row. *)
Lemma C4_load_failure_aborts_run :
  outcome (process_teacher_csvs (S := sequential) two_files) = inl ParserError
  /\ outcome (process_teacher_csvs (S := sequential) (rev two_files))
     = inl ParserError
  /\ ~ (exists rs, outcome (process_teacher_csvs (S := sequential) two_files)
                   = inr rs).
Proof.
  split; [vm_compute; reflexivity|].
  split; [vm_compute; reflexivity|].
  intros [rs H]. vm_compute in H. discriminate H.
Qed.

(** *** Tables without an "AVG" column *)

(** C5: a table without an "AVG" column adds no row and raises nothing, and
    the files after it are processed: the iteration prints the warning and
    leaves [data] as it was; the run over the directory returns what it
    returns without that file, namely the records of the files before it
    followed by those of the files after it; every ".csv" file of the
    directory with a column of numbers has its record in the table
    returned. *)
Theorem C5_missing_AVG_skipped {S : Summation} (pre post : Folder)
        (csv_file : pystr) (df : DataFrame) :
  has_column AVG df = false ->
  let folder := pre ++ (csv_file, inr df) :: post in
  (forall data, loop_body data (csv_file, inr df) = ([WarnNoAVG csv_file], inr data))
  /\ outcome (process_teacher_csvs folder)
     = outcome (process_teacher_csvs (pre ++ post))
  /\ outcome (process_teacher_csvs folder)
     = and_then (collect (csv_files_of pre)) (collect (csv_files_of post))
  /\ forall rs,
       outcome (process_teacher_csvs folder) = inr rs ->
       forall f df' vs,
         In (f, inr df') (pre ++ post) ->
         endswith f dot_csv = true ->
         column AVG df' = Some (Numeric vs) ->
         In (band_record (str_replace f dot_csv []) vs) rs.
Proof.
  intros H folder.
  assert (E : outcome (process_teacher_csvs folder)
              = outcome (process_teacher_csvs (pre ++ post))).
  { unfold folder. rewrite !outcome_process, !csv_files_of_app.
    unfold csv_files_of at 2. cbn [filter fst].
    destruct (endswith csv_file dot_csv); [|reflexivity].
    fold (csv_files_of post). rewrite for_each_skip; [reflexivity|].
    intros d. now rewrite loop_body_no_AVG. }
  split; [intros data; now apply loop_body_no_AVG|].
  split; [exact E|].
  rewrite E, outcome_collect, csv_files_of_app.
  split; [apply collect_app|].
  intros rs R f df' vs I F C.
  rewrite <- csv_files_of_app in R.
  apply (collect_In _ _ f df' vs R); [|exact C].
  apply filter_In. split; [exact I|exact F].
Qed.

Lemma C5_missing_AVG_skipped_witness :
  outcome (process_teacher_csvs (S := sequential)
             ([(py "ann.csv", inr (table (ones 21)))]
              ++ (py "bob.csv", inr no_avg_table)
              :: [(py "eve.csv", inr (table (Numeric (count_up 21))))]))
  = inr [{| teacher_name := py "ann"; instructor_skill := 1%float;
            interaction := 1%float; student_motivation := 1%float;
            course_organization := 1%float |};
         {| teacher_name := py "eve"; instructor_skill := 3%float;
            interaction := 8.5%float; student_motivation := 13.5%float;
            course_organization := 18.5%float |}].
Proof.
  pose proof (C5_missing_AVG_skipped (S := sequential)
                [(py "ann.csv", inr (table (ones 21)))]
                [(py "eve.csv", inr (table (Numeric (count_up 21))))]
                (py "bob.csv") no_avg_table eq_refl) as (_ & _ & H & _).
  refine (eq_trans H _). vm_compute. reflexivity.
Defined.

(** *** Columns with missing values or text *)

(** C7, as amended: a table whose "AVG" column is held as numbers, cells
    that are missing among them, is never rejected, whatever its length: a
    record is emitted, each metric the sum of the rows of its band that the
    column has, the missing ones left out, over the number of those present,
    and not-a-number when none is present.  A table whose "AVG" column is
    held as text makes the first [mean] raise [TypeError], which nothing
    catches: the iteration prints nothing and adds no record, and a run over
    a directory holding the file raises. *)
Theorem C7_missing_values_skipped {S : Summation} (csv_file : pystr)
        (df : DataFrame) (avg : Series) :
  endswith csv_file dot_csv = true ->
  column AVG df = Some avg ->
  match avg with
  | Numeric vs =>
      exists r,
        produces csv_file df r
        /\ (forall data,
              loop_body data (csv_file, inr df)
              = (processed_lines r, inr (append data r)))
        /\ instructor_skill r = mean_of_present (rows_found vs 0 5)
        /\ interaction r = mean_of_present (rows_found vs 5 11)
        /\ student_motivation r = mean_of_present (rows_found vs 11 15)
        /\ course_organization r = mean_of_present (rows_found vs 15 21)
  | Text _ =>
      (forall data, loop_body data (csv_file, inr df) = ([], inl TypeError))
      /\ outcome (process_teacher_csvs [(csv_file, inr df)]) = inl TypeError
      /\ forall folder,
           In (csv_file, inr df) folder ->
           exists e, outcome (process_teacher_csvs folder) = inl e
  end.
Proof.
  intros E C. destruct avg as [vs|ts].
  - exists (band_record (str_replace csv_file dot_csv []) vs).
    split; [apply single_file_run; assumption|].
    split; [intros data; apply (loop_body_numbers _ _ _ _ C)|].
    cbn [band_record instructor_skill interaction student_motivation
         course_organization].
    rewrite !nanmean_mean_of_present, !slice_rows_found.
    repeat split; reflexivity.
  - assert (L : forall data, loop_body data (csv_file, inr df) = ([], inl TypeError))
      by (intros data; apply (loop_body_text _ _ _ _ C)).
    split; [exact L|]. split.
    + rewrite outcome_process. unfold csv_files_of. cbn [filter fst]. rewrite E.
      rewrite for_each_cons, outcome_bind, L. reflexivity.
    + intros folder I.
      destruct (for_each_raising (csv_files_of folder) (csv_file, inr df)
                  TypeError empty_data) as [e R].
      * intros d. now rewrite L.
      * apply filter_In. split; [exact I|exact E].
      * exists e. rewrite outcome_process, R. reflexivity.
Qed.

Lemma C7_missing_values_skipped_witness :
  (exists r,
     produces (S := sequential) (py "ann.csv") (table one_missing) r
     /\ instructor_skill r = 1%float)
  /\ outcome (process_teacher_csvs (S := sequential)
                [(py "ann.csv", inr (table one_text))])
     = inl TypeError.
Proof.
  split.
  - destruct (C7_missing_values_skipped (S := sequential) (py "ann.csv")
                (table one_missing) one_missing eq_refl eq_refl)
      as (r & P & _ & I & _).
    exists r. split; [exact P|]. rewrite I. vm_compute. reflexivity.
  - exact (proj1 (proj2 (C7_missing_values_skipped (S := sequential)
                           (py "ann.csv") (table one_text) one_text
                           eq_refl eq_refl))).
Defined.

(** C7 (counterexample): a missing value in a band does not make the band's
    mean not-a-number, it is left out of the mean; a column held as text
    makes [mean] raise [TypeError], which is not caught: the run fails and
    emits no record. *)
Lemma C7_non_numeric_not_passed_through :
  outcome (process_teacher_csvs (S := sequential)
             [(py "ann.csv", inr (table one_missing))])
  = inr [{| teacher_name := py "ann"; instructor_skill := 1%float;
            interaction := 1%float; student_motivation := 1%float;
            course_organization := 1%float |}]
  /\ outcome (process_teacher_csvs (S := sequential)
                [(py "ann.csv", inr (table one_text))])
     = inl TypeError.
Proof. split; vm_compute; reflexivity. Qed.

(** *** The name of a record *)

(** C9 (evaluation): every occurrence of ".csv" is removed from the file
    name, not only the extension: the file "a.csv.csv" yields the name "a". *)
Theorem C9_inner_csv_removed :
  str_replace (py "a.csv" ++ dot_csv) dot_csv [] = py "a"
  /\ str_replace (py "a.csv" ++ dot_csv) dot_csv [] <> py "a.csv"
  /\ exists r,
       produces (S := sequential) (py "a.csv" ++ dot_csv) (table (ones 21)) r
       /\ teacher_name r = py "a".
Proof.
  split; [vm_compute; reflexivity|].
  split; [intros H; vm_compute in H; discriminate H|].
  eexists. split; [vm_compute; reflexivity|reflexivity].
Qed.

(** *** The [except IndexError] branch *)

Section Handler.
Context {S : Summation}.

Lemma loop_body_quiet (data : Data) (e : entry) :
  Forall not_handler_line (stdout (loop_body data e)).
Proof.
  destruct e as [f file].
  destruct (loop_body_cases data f file); cbn [stdout fst processed_lines];
    repeat constructor.
Qed.

Lemma for_each_quiet (csv_files : list entry) (data : Data) :
  Forall not_handler_line (stdout (for_each csv_files data)).
Proof.
  revert data. induction csv_files as [|e rest IH]; intros data; [constructor|].
  rewrite for_each_cons, stdout_bind.
  pose proof (loop_body_quiet data e) as Q.
  destruct (outcome (loop_body data e)) as [x|data']; [exact Q|].
  apply Forall_app. split; [exact Q|apply IH].
Qed.

Lemma process_quiet (folder : Folder) :
  Forall not_handler_line (stdout (process_teacher_csvs folder)).
Proof.
  unfold process_teacher_csvs.
  repeat (rewrite stdout_bind; cbn [print outcome stdout fst snd]).
  cbn [app]. do 2 (constructor; [exact I|]).
  pose proof (for_each_quiet (csv_files_of folder) empty_data) as Q.
  destruct (outcome (for_each (csv_files_of folder) empty_data)) as [x|data];
    [exact Q|].
  apply Forall_app. split; [exact Q|].
  unfold pd_DataFrame. destruct (rows_of data); cbn; repeat constructor.
Qed.

End Handler.

(** C10: the [try] block never raises [IndexError], so the handler never
    takes over from it, and no run prints a line of the handler. *)
Theorem C10_handler_unreachable {S : Summation} :
  (forall data name df, outcome (try_body data name df) <> inl IndexError)
  /\ (forall data name csv_file df,
        try_except_IndexError (try_body data name df) (handler data csv_file df)
        = try_body data name df)
  /\ (forall folder csv_file n,
        ~ In (NotEnoughRows csv_file) (stdout (process_teacher_csvs folder))
        /\ ~ In (ExpectedRows n) (stdout (process_teacher_csvs folder))).
Proof.
  assert (T : forall data name df, outcome (try_body data name df) <> inl IndexError).
  { intros data name df.
    destruct (try_body_outcomes data name df) as [->|[->|[r ->]]]; discriminate. }
  split; [exact T|].
  split; [intros; apply try_except_no_IndexError, T|].
  intros folder csv_file n.
  pose proof (process_quiet folder) as Q. rewrite Forall_forall in Q.
  split; intros H; exact (Q _ H).
Qed.

(** *** The size of the result table and the names in it *)

Lemma for_each_count {S : Summation} (csv_files : list entry) (data data' : Data)
      (rs : list TeacherRecord) :
  rows_of data = Some rs ->
  outcome (for_each csv_files data) = inr data' ->
  exists rs', rows_of data' = Some (rs ++ rs')
              /\ length rs' = length (filter has_AVG csv_files).
Proof.
  revert data rs. induction csv_files as [|[f file] rest IH]; intros data rs R H.
  - simpl in H. injection H as <-. exists []. now rewrite app_nil_r.
  - rewrite for_each_cons, outcome_bind in H. cbn [filter].
    destruct file as [e|df]; [discriminate H|]. unfold has_AVG at 1. cbn [snd].
    destruct (column AVG df) as [[vs|ts]|] eqn:C.
    + assert (A : has_column AVG df = true) by (apply has_column_column; eauto).
      rewrite A.
      rewrite (loop_body_numbers _ _ _ _ C) in H. cbn [outcome snd] in H.
      destruct (IH _ _ (rows_of_append _ _ _ R) H) as (rs' & E & N).
      eexists (_ :: rs'). rewrite E, <- app_assoc. split; [reflexivity|].
      simpl. now rewrite N.
    + rewrite (loop_body_text _ _ _ _ C) in H. discriminate H.
    + rewrite (column_None _ C).
      rewrite (loop_body_no_AVG _ _ _ (column_None _ C)) in H. exact (IH _ _ R H).
Qed.

(** X1: a run that returns has one row for each ".csv" file whose table has an
    "AVG" column, so no more rows than ".csv" files. *)
Theorem row_count {S : Summation} (folder : Folder) (rs : list TeacherRecord) :
  outcome (process_teacher_csvs folder) = inr rs ->
  length rs = length (filter has_AVG (csv_files_of folder))
  /\ length rs <= length (csv_files_of folder).
Proof.
  intros H. rewrite outcome_process in H.
  destruct (outcome (for_each (csv_files_of folder) empty_data)) as [e|data] eqn:F;
    [discriminate H|].
  destruct (for_each_count _ empty_data data [] eq_refl F) as (rs' & E & N).
  rewrite E in H. injection H as <-. cbn [app].
  split; [exact N|]. rewrite N. apply filter_length_le.
Qed.

Lemma row_count_witness :
  length [band_record (S := sequential) (py "ann") (repeat 1%float 21);
          band_record (S := sequential) (py "eve") (repeat 1%float 21)]
  = length (filter has_AVG (csv_files_of three_files)).
Proof.
  apply (row_count (S := sequential) three_files
           [band_record (py "ann") (repeat 1%float 21);
            band_record (py "eve") (repeat 1%float 21)]).
  vm_compute. reflexivity.
Defined.

(** X2: when ".csv" occurs in the file name as its extension only, the name of
    the record is the file name without it. *)
Theorem name_of_plain_file (f : pystr) :
  only_final_csv f = true -> str_replace (f ++ dot_csv) dot_csv [] = f.
Proof.
  unfold str_replace. induction f as [|c f IH]; intros H; [reflexivity|].
  cbn [only_final_csv] in H. apply andb_true_iff in H as [S H].
  apply negb_true_iff in S.
  change ((c :: f) ++ dot_csv) with (c :: (f ++ dot_csv)) in *.
  cbn [replace_from]. rewrite S. f_equal. apply IH, H.
Qed.

Lemma name_of_plain_file_witness :
  str_replace (py "ann.b" ++ dot_csv) dot_csv [] = py "ann.b".
Proof. apply (name_of_plain_file (py "ann.b")). reflexivity. Defined.

End SurveyFacts.

(** * Properties of the text normaliser *)

Module TextFacts.

Local Open Scope N_scope.

Example sub_bracketed_great :
  sub_bracketed great_teacher = py "Great  TEACHER!!".
Proof. vm_compute. reflexivity. Qed.

Example sub_bracketed_first_close :
  sub_bracketed (py "a[b[c]d]e") = py "ad]e".
Proof. vm_compute. reflexivity. Qed.

Example sub_bracketed_unclosed :
  sub_bracketed (py "a[b") = py "a[b"
  /\ sub_bracketed (py "[a" ++ [newline] ++ py "b][c]") = py "[a" ++ [newline] ++ py "b]".
Proof. split; vm_compute; reflexivity. Qed.

Example word_nlp_tokens :
  map lemma_ (word_nlp (py "the  good teacher")) = [py "the"; py "good"; py "teacher"]
  /\ map is_stop (word_nlp (py "the  good teacher")) = [true; false; false].
Proof. split; vm_compute; reflexivity. Qed.

(** *** The cleaned text *)

(** [remove_lower] is the two substitutions: the lowered texts are not used. *)
Lemma remove_lower_unfold (U : Unicode) (series : TextSeries) :
  remove_lower U series = map (fun s => sub_not_word_space U (sub_bracketed s)) series.
Proof. unfold remove_lower. cbv zeta. apply map_map. Qed.

Lemma sub_not_word_space_In (U : Unicode) (s : pystr) (c : pychar) :
  In c (sub_not_word_space U s) <-> In c s /\ re_w U c || re_s U c = true.
Proof. unfold sub_not_word_space. apply filter_In. Qed.

(** C3 (evaluation): on "Great [TA name] TEACHER!!" the cleaned text that
    [remove_lower] hands on still has its capitals, whatever the tables, and
    the pipeline that keeps each word as its lemma returns them; for every
    series the lowered texts play no part in the result. *)
Theorem C3_capitals_survive :
  (forall U, remove_lower U [great_teacher] = [py "Great  TEACHER"])
  /\ (forall U, clean_normalize U word_nlp [great_teacher] = [py "Great TEACHER"])
  /\ (forall U series,
        remove_lower U series
        = map (fun s => sub_not_word_space U (sub_bracketed s)) series)
  /\ str_lower ascii_only great_teacher = py "great [ta name] teacher!!".
Proof.
  split; [intros U; vm_compute; reflexivity|].
  split; [intros U; vm_compute; reflexivity|].
  split; [exact remove_lower_unfold|].
  vm_compute. reflexivity.
Qed.

(** *** The punctuation strip *)

Lemma kept_iff (U : Unicode) (c : pychar) :
  re_w U c || re_s U c = true <-> kept U c.
Proof.
  unfold kept, re_w, re_s.
  rewrite !orb_true_iff, N.eqb_eq. tauto.
Qed.

(** C6, as amended: the punctuation strip deletes the code points that are
    neither alphanumeric, nor an underscore, nor white space, and nothing
    else: every remaining code point is of these, every such code point of
    the input remains, in its place and as often as it occurs, and a text
    made of such code points only comes out as it went in; the same holds
    of each text [remove_lower] returns. *)
Theorem C6_word_or_space_remains (U : Unicode) (s : pystr) :
  Forall (kept U) (sub_not_word_space U s)
  /\ (forall c, In c (sub_not_word_space U s) <-> In c s /\ kept U c)
  /\ (forall series, Forall (Forall (kept U)) (remove_lower U series))
  /\ sub_not_word_space U [] = []
  /\ (forall c t,
        kept U c -> sub_not_word_space U (c :: t) = c :: sub_not_word_space U t)
  /\ (forall c t,
        ~ kept U c -> sub_not_word_space U (c :: t) = sub_not_word_space U t)
  /\ (forall t, sub_not_word_space U (s ++ t)
                = sub_not_word_space U s ++ sub_not_word_space U t)
  /\ (Forall (kept U) s -> sub_not_word_space U s = s).
Proof.
  assert (F : forall t, Forall (kept U) (sub_not_word_space U t)).
  { intros t. apply Forall_forall. intros c H.
    apply sub_not_word_space_In in H as [_ H]. now apply kept_iff. }
  assert (K : forall c t,
             kept U c -> sub_not_word_space U (c :: t) = c :: sub_not_word_space U t).
  { intros c t H. apply kept_iff in H.
    unfold sub_not_word_space. cbn [filter]. now rewrite H. }
  split; [apply F|].
  split; [intros c; rewrite sub_not_word_space_In, kept_iff; reflexivity|].
  split.
  { intros series. rewrite remove_lower_unfold.
    apply Forall_forall. intros t H.
    apply in_map_iff in H as (x & <- & _). apply F. }
  split; [reflexivity|].
  split; [exact K|].
  split.
  { intros c t H. unfold sub_not_word_space. cbn [filter].
    destruct (re_w U c || re_s U c) eqn:E; [|reflexivity].
    apply kept_iff in E. contradiction. }
  split; [intros t; apply filter_app|].
  intros H. induction H as [|c l C _ IH]; [reflexivity|].
  rewrite (K c l C), IH. reflexivity.
Qed.

(** C6 (counterexample): the underscore is neither alphanumeric nor white
    space, and the strip keeps it: "a_b" comes out as it went in. *)
Lemma C6_underscore_survives :
  (forall U, sub_not_word_space U (py "a_b") = py "a_b")
  /\ (forall U, isalnum U underscore || isspace U underscore = false)
  /\ ~ (forall U s,
          Forall (fun c => isalnum U c || isspace U c = true)
                 (sub_not_word_space U s)).
Proof.
  split; [intros U; vm_compute; reflexivity|].
  split; [intros U; vm_compute; reflexivity|].
  intros H. specialize (H ascii_only (py "a_b")).
  vm_compute in H. inversion H as [|c l _ T]; subst.
  inversion T as [|c' l' D _]; subst. discriminate D.
Qed.

(** *** Empty results *)

Lemma token_lemma_nonstop_all_stop (nlp : pystr -> list Token) (t : pystr) :
  forallb is_stop (nlp t) = true -> token_lemma_nonstop nlp t = [].
Proof.
  unfold token_lemma_nonstop. cbv zeta.
  induction (nlp t) as [|tok doc IH]; intros H; [reflexivity|].
  cbn [forallb] in H. apply andb_true_iff in H as [S H].
  cbn [filter]. rewrite S. cbn [negb]. now apply IH.
Qed.

Lemma remove_lower_empty (U : Unicode) : remove_lower U [[]] = [[]].
Proof. reflexivity. Qed.

(** C8: when the pipeline finds no token in the empty text, the empty text
    is normalised to the empty text; a text whose cleaned form has only stop
    words as tokens is normalised to the empty text. *)
Theorem C8_empty_output (U : Unicode) (nlp : pystr -> list Token) :
  (nlp [] = [] -> clean_normalize U nlp [[]] = [[]])
  /\ (forall s cleaned,
        remove_lower U [s] = [cleaned] ->
        forallb is_stop (nlp cleaned) = true ->
        clean_normalize U nlp [s] = [[]]).
Proof.
  split.
  - intros E. unfold clean_normalize. cbv zeta. rewrite remove_lower_empty.
    cbn [map]. unfold token_lemma_nonstop. rewrite E. reflexivity.
  - intros s cleaned R S. unfold clean_normalize. cbv zeta. rewrite R.
    cbn [map]. now rewrite token_lemma_nonstop_all_stop.
Qed.

Lemma C8_empty_output_witness :
  clean_normalize ascii_only word_nlp [[]] = [[]]
  /\ clean_normalize ascii_only word_nlp [py "the[old] a!"] = [[]].
Proof.
  split.
  - apply (proj1 (C8_empty_output ascii_only word_nlp)). reflexivity.
  - apply (proj2 (C8_empty_output ascii_only word_nlp)
                 (py "the[old] a!") (py "the a")); reflexivity.
Defined.

(** *** Brackets, and the shape of the result *)

Lemma bracket_not_kept (U : Unicode) :
  ~ kept U lbracket /\ ~ kept U rbracket.
Proof. split; intros [H|[H|H]]; vm_compute in H; discriminate H. Qed.

(** X3: no text that [remove_lower] returns holds a bracket. *)
Theorem brackets_never_survive (U : Unicode) (series : TextSeries) :
  Forall (fun t => ~ In lbracket t /\ ~ In rbracket t) (remove_lower U series).
Proof.
  rewrite remove_lower_unfold. apply Forall_forall. intros t H.
  apply in_map_iff in H as (x & <- & _).
  destruct (bracket_not_kept U) as [L R].
  split; intros B; apply sub_not_word_space_In in B as [_ B];
    apply kept_iff in B; [exact (L B)|exact (R B)].
Qed.

(** X4: the normaliser returns one text for each text it is given, in
    order. *)
Theorem clean_normalize_elementwise (U : Unicode) (nlp : pystr -> list Token)
        (series more : TextSeries) :
  length (clean_normalize U nlp series) = length series
  /\ clean_normalize U nlp (series ++ more)
     = clean_normalize U nlp series ++ clean_normalize U nlp more.
Proof.
  unfold clean_normalize. cbv zeta. rewrite !remove_lower_unfold.
  split; [now rewrite !length_map|]. now rewrite !map_app.
Qed.

End TextFacts.
(** * Further properties of [process_teacher_csvs] *)

Module RunFacts.
Import SurveyFacts.

Lemma collect_names {S : Summation} (csv_files : list entry)
      (rs : list TeacherRecord) :
  collect csv_files = inr rs ->
  map teacher_name rs
  = map (fun e => str_replace (fst e) dot_csv []) (filter has_AVG csv_files).
Proof.
  revert rs. induction csv_files as [|[f file] rest IH]; intros rs H.
  - injection H as <-. reflexivity.
  - cbn [collect filter] in *. unfold entry_result, has_AVG in *. cbn [fst snd] in *.
    destruct file as [x|df]; [discriminate H|].
    destruct (column AVG df) as [[vs|ts]|] eqn:C.
    + assert (A : has_column AVG df = true) by (apply has_column_column; eauto).
      rewrite A.
      destruct (collect rest) as [x|rs']; [discriminate H|].
      injection H as <-. cbn. f_equal. now apply IH.
    + discriminate H.
    + rewrite (column_None _ C).
      destruct (collect rest) as [x|rs']; [discriminate H|].
      injection H as <-. now apply IH.
Qed.

(** X5: a run returns, in the order of the listing, one record for each
    ".csv" file whose table has an "AVG" column, the means taken over the
    rows each band finds, and raises the exception of the first ".csv" file
    that cannot be loaded or whose "AVG" column is held as text; the names
    of the rows are those of these files, in order. *)
Theorem run_is_collect {S : Summation} (folder : Folder) :
  outcome (process_teacher_csvs folder) = collect (csv_files_of folder)
  /\ forall rs,
       outcome (process_teacher_csvs folder) = inr rs ->
       map teacher_name rs
       = map (fun e => str_replace (fst e) dot_csv [])
             (filter has_AVG (csv_files_of folder)).
Proof.
  split; [apply outcome_collect|].
  intros rs H. rewrite outcome_collect in H. now apply collect_names.
Qed.

(** X6: the run over two listings put end to end returns the rows of the
    first followed by the rows of the second, and raises what the first
    raises, or else what the second raises. *)
Theorem run_of_concatenation {S : Summation} (pre post : Folder) :
  outcome (process_teacher_csvs (pre ++ post))
  = and_then (outcome (process_teacher_csvs pre))
             (outcome (process_teacher_csvs post)).
Proof.
  rewrite !outcome_collect, csv_files_of_app. apply collect_app.
Qed.

(** *** Rows past the twenty-first *)

Lemma slice_firstn {A} (l : list A) (n start stop : nat) :
  stop <= n -> slice (firstn n l) start stop = slice l start stop.
Proof.
  intros H. unfold slice.
  rewrite skipn_firstn_comm, firstn_firstn.
  f_equal. lia.
Qed.

Lemma firstn_sum {A} (a b : nat) (l : list A) :
  firstn (a + b) l = firstn a l ++ firstn b (skipn a l).
Proof.
  revert l. induction a as [|a IH]; intros [|x l]; cbn; try reflexivity.
  - now rewrite firstn_nil.
  - now rewrite IH.
Qed.

Lemma slice_adjacent {A} (l : list A) (a b c : nat) :
  a <= b <= c -> slice l a b ++ slice l b c = slice l a c.
Proof.
  intros H. unfold slice.
  replace (c - a) with ((b - a) + (c - b)) by lia.
  rewrite firstn_sum. f_equal.
  rewrite skipn_skipn. f_equal. f_equal. lia.
Qed.

Lemma band_record_firstn {S : Summation} (name : pystr) (vs : list pyfloat) :
  band_record name (firstn 21 vs) = band_record name vs.
Proof. unfold band_record. now rewrite !slice_firstn by lia. Qed.

(** X7: the four bands are rows 0 to 20, each row in one band, and nothing
    past them is read: two tables whose "AVG" columns hold numbers and agree
    on their first 21 rows are treated alike, whatever else they hold. *)
Theorem first_21_rows_decide {S : Summation} (df df' : DataFrame)
        (vs vs' : list pyfloat) :
  column AVG df = Some (Numeric vs) ->
  column AVG df' = Some (Numeric vs') ->
  firstn 21 vs = firstn 21 vs' ->
  slice vs 0 5 ++ slice vs 5 11 ++ slice vs 11 15 ++ slice vs 15 21
  = firstn 21 vs
  /\ forall data csv_file,
       loop_body data (csv_file, inr df) = loop_body data (csv_file, inr df').
Proof.
  intros C C' E. split.
  - rewrite !slice_adjacent by lia. unfold slice. now rewrite Nat.sub_0_r.
  - intros data csv_file.
    rewrite (loop_body_numbers _ _ _ _ C), (loop_body_numbers _ _ _ _ C').
    rewrite <- (band_record_firstn _ vs), <- (band_record_firstn _ vs'), E.
    reflexivity.
Qed.

Lemma first_21_rows_decide_witness :
  loop_body (S := sequential) empty_data (py "ann.csv", inr (table (ones 21)))
  = loop_body (S := sequential) empty_data
      (py "ann.csv", inr (table (Numeric (repeat 1%float 21 ++ [NaN; 7%float])))).
Proof.
  apply (first_21_rows_decide (S := sequential)
           (table (ones 21))
           (table (Numeric (repeat 1%float 21 ++ [NaN; 7%float])))
           (repeat 1%float 21) (repeat 1%float 21 ++ [NaN; 7%float]));
    reflexivity.
Defined.

End RunFacts.

(** * Properties of [process_teacher_csvs_custom] *)

Module CustomFacts.
Import SurveyFacts.

(** *** Keys and lists *)

Lemma str_eqb_eq (a b : pystr) : str_eqb a b = true <-> a = b.
Proof.
  revert b; induction a as [|x a IH]; intros [|y b]; cbn; split;
    try congruence; try reflexivity.
  - intros H. apply andb_true_iff in H as [Hx Hr].
    apply N.eqb_eq in Hx. apply IH in Hr. congruence.
  - intros H. injection H as -> ->. rewrite N.eqb_refl. now apply IH.
Qed.

Lemma str_eqb_refl (a : pystr) : str_eqb a a = true.
Proof. now apply str_eqb_eq. Qed.

Lemma str_eqb_neq (a b : pystr) : a <> b -> str_eqb a b = false.
Proof.
  intros H. destruct (str_eqb a b) eqn:E; [|reflexivity].
  apply str_eqb_eq in E. contradiction.
Qed.

Lemma dict_get_here (pre post : PyDict) (k : pystr) (v : list pyval) :
  ~ In k (map fst pre) -> dict_get (pre ++ (k, v) :: post) k = Some v.
Proof.
  induction pre as [|[k' v'] pre IH]; intros H; cbn.
  - now rewrite str_eqb_refl.
  - rewrite str_eqb_neq; [apply IH|]; intros E; apply H; cbn; auto.
Qed.

Lemma dict_set_here (pre post : PyDict) (k : pystr) (v w : list pyval) :
  ~ In k (map fst pre) ->
  dict_set (pre ++ (k, v) :: post) k w = pre ++ (k, w) :: post.
Proof.
  induction pre as [|[k' v'] pre IH]; intros H; cbn.
  - now rewrite str_eqb_refl.
  - rewrite str_eqb_neq; [f_equal; apply IH|]; intros E; apply H; cbn; auto.
Qed.

Lemma dict_set_fresh (d : PyDict) (k : pystr) (v : list pyval) :
  ~ In k (map fst d) -> dict_set d k v = d ++ [(k, v)].
Proof.
  induction d as [|[k' v'] d IH]; intros H; cbn; [reflexivity|].
  rewrite str_eqb_neq; [f_equal; apply IH|]; intros E; apply H; cbn; auto.
Qed.

(** *** Slices with bounds that are not negative *)

Lemma slice_clamped {A} (l : list A) (start stop : nat) :
  slice l (Nat.min start (length l)) (Nat.min stop (length l))
  = slice l start stop.
Proof.
  unfold slice.
  destruct (Nat.le_gt_cases (length l) start) as [L|L].
  - rewrite (Nat.min_r _ _ L), !skipn_all2 by lia. now rewrite !firstn_nil.
  - rewrite (Nat.min_l start) by lia.
    destruct (Nat.le_gt_cases (length l) stop) as [L'|L'].
    + rewrite (Nat.min_r _ _ L').
      rewrite !firstn_all2; try reflexivity; rewrite length_skipn; lia.
    + rewrite (Nat.min_l stop) by lia. reflexivity.
Qed.

Lemma iloc_slice_nat (s : Series) (start stop : nat) :
  iloc_slice s (Z.of_nat start) (Z.of_nat stop) = iloc s start stop.
Proof.
  unfold iloc_slice, slice_index.
  assert (N : forall i, (Z.of_nat i <? 0)%Z = false)
    by (intros i; apply Z.ltb_ge; lia).
  rewrite !N, !Nat2Z.id.
  destruct s as [vs|ts]; cbn [iloc size]; now rewrite slice_clamped.
Qed.

(** *** Steps of a stateful computation *)

Lemma sbind_returns {A B} (m : ST A) (k : A -> ST B) (d d' : PyDict) (a : A) :
  m d = (d', ([], inr a)) -> sbind m k d = k a d'.
Proof.
  intros H. unfold sbind. rewrite H.
  destruct (k a d') as [d'' [out r]]. reflexivity.
Qed.

Lemma sbind_raises {A B} (m : ST A) (k : A -> ST B) (d d' : PyDict)
      (out : list cline) (e : exn) :
  m d = (d', (out, inl e)) -> sbind m k d = (d', (out, inl e)).
Proof. intros H. unfold sbind. now rewrite H. Qed.

Lemma sbind_quiet {A B} (m : ST A) (k : A -> ST B) (d : PyDict) :
  quiet (m d) -> (forall a d', quiet (k a d')) -> quiet (sbind m k d).
Proof.
  unfold quiet, sbind. intros [O E] K.
  destruct (m d) as [d' [out [e|a]]]; cbn in *.
  { split; [exact O|]. intros H. apply E. injection H as ->. reflexivity. }
  specialize (K a d'). destruct (k a d') as [d'' [out' r]]; cbn in *.
  destruct K as [O' E']. subst. now split.
Qed.

Lemma list_append_quiet (k : pystr) (v : pyval) (d : PyDict) :
  quiet (list_append k v d).
Proof.
  unfold quiet, list_append. destruct (dict_get d k); cbn; split;
    try reflexivity; discriminate.
Qed.

Lemma mean_quiet {S : Summation} (s : Series) (d : PyDict) :
  quiet (lift (mean s) d).
Proof.
  unfold quiet, lift, mean. destruct s; cbn; split;
    try reflexivity; discriminate.
Qed.

Lemma getitem_quiet (df : DataFrame) (k : pystr) (d : PyDict) :
  quiet (lift (getitem df k) d).
Proof.
  unfold quiet, lift, getitem. destruct (column k df); cbn; split;
    try reflexivity; discriminate.
Qed.

Lemma for_items_quiet {S : Summation} (items : RowRanges) (df : DataFrame) (d : PyDict) :
  quiet (for_items items df d).
Proof.
  revert d. induction items as [|[metric [start stop]] rest IH]; intros d.
  - cbn. split; [reflexivity|discriminate].
  - cbn [for_items].
    apply sbind_quiet; [apply getitem_quiet|intros avg d1].
    apply sbind_quiet; [apply mean_quiet|intros v d2].
    apply sbind_quiet; [apply list_append_quiet|intros _ d3]. apply IH.
Qed.

Lemma custom_try_body_quiet {S : Summation} (name : pystr) (row_ranges : RowRanges)
      (df : DataFrame) (d : PyDict) :
  quiet (custom_try_body name row_ranges df d).
Proof.
  unfold custom_try_body.
  apply sbind_quiet; [apply list_append_quiet|intros _ d1]. apply for_items_quiet.
Qed.

Lemma s_try_except_quiet {A} (body handler : ST A) (d : PyDict) :
  quiet (body d) -> s_try_except_IndexError body handler d = body d.
Proof.
  unfold quiet, s_try_except_IndexError. intros [_ E].
  destruct (body d) as [d' [out [[]|a]]]; cbn in *; try reflexivity.
  now elim E.
Qed.

Lemma custom_loop_body_silent {S : Summation} (row_ranges : RowRanges) (e : entry) (d : PyDict) :
  stdout (snd (custom_loop_body row_ranges e d)) = [].
Proof.
  destruct e as [csv_file [x|df]]; [reflexivity|].
  unfold custom_loop_body.
  rewrite (sbind_returns _ _ d d df) by reflexivity.
  destruct (has_column AVG df); cbn [negb]; [|reflexivity].
  rewrite s_try_except_quiet by apply custom_try_body_quiet.
  apply custom_try_body_quiet.
Qed.

Lemma custom_for_each_silent {S : Summation} (row_ranges : RowRanges) (csv_files : list entry)
      (d : PyDict) :
  stdout (snd (custom_for_each row_ranges csv_files d)) = [].
Proof.
  revert d. induction csv_files as [|e rest IH]; intros d; [reflexivity|].
  cbn [custom_for_each]. unfold sbind.
  pose proof (custom_loop_body_silent row_ranges e d) as Q.
  destruct (custom_loop_body row_ranges e d) as [d' [out [x|a]]]; cbn in Q;
    subst; [reflexivity|].
  specialize (IH d').
  destruct (custom_for_each row_ranges rest d') as [d'' [out' r]]. exact IH.
Qed.

(** X8: whatever the ranges and the files, the [try] block of
    [process_teacher_csvs_custom] never raises [IndexError], so its handler,
    the message and the [pop] of the last name, never runs, and a run prints
    nothing. *)
Theorem custom_handler_unreachable {S : Summation} :
  (forall name row_ranges df d,
     outcome (snd (custom_try_body name row_ranges df d)) <> inl IndexError)
  /\ (forall name row_ranges df csv_file d,
        s_try_except_IndexError (custom_try_body name row_ranges df)
                                (custom_handler csv_file) d
        = custom_try_body name row_ranges df d)
  /\ (forall folder row_ranges,
        stdout (process_teacher_csvs_custom folder row_ranges) = []).
Proof.
  split; [intros; apply custom_try_body_quiet|].
  split; [intros; apply s_try_except_quiet, custom_try_body_quiet|].
  intros folder row_ranges. unfold process_teacher_csvs_custom. cbv zeta.
  pose proof (custom_for_each_silent row_ranges (csv_files_of folder)
                                     (initial_data row_ranges)) as Q.
  destruct (custom_for_each row_ranges (csv_files_of folder) (initial_data row_ranges))
    as [d [out [x|a]]]; cbn in Q; subst; [reflexivity|].
  unfold pd_DataFrame_of_dict. destruct (same_lengths d); reflexivity.
Qed.

(** *** The columns a run builds *)

Lemma sbind_outcome_raises {A B} (m : ST A) (k : A -> ST B) (d : PyDict) (e : exn) :
  outcome (snd (m d)) = inl e -> outcome (snd (sbind m k d)) = inl e.
Proof.
  unfold sbind. destruct (m d) as [d' [out [x|a]]]; cbn; intros H;
    [congruence|discriminate H].
Qed.

Lemma metric_columns_keys {S : Summation} (row_ranges : RowRanges) (files : list (pystr * Series)) :
  map fst (metric_columns row_ranges files) = map fst row_ranges.
Proof. unfold metric_columns. rewrite map_map. reflexivity. Qed.

Lemma metric_columns_app {S : Summation} (done todo : RowRanges) (files : list (pystr * Series)) :
  metric_columns (done ++ todo) files
  = metric_columns done files ++ metric_columns todo files.
Proof. apply map_app. Qed.

Lemma fold_dict_set_fresh (keys : list pystr) (d : PyDict) :
  NoDup keys ->
  (forall k, In k keys -> ~ In k (map fst d)) ->
  fold_left (fun d k => dict_set d k []) keys d
  = d ++ map (fun k => (k, [])) keys.
Proof.
  revert d. induction keys as [|k keys IH]; intros d N F; cbn.
  - now rewrite app_nil_r.
  - inversion N as [|k' l Hk N']; subst.
    rewrite dict_set_fresh by (apply F; now left).
    rewrite IH; [now rewrite <- app_assoc|exact N'|].
    intros k' I. rewrite map_app, in_app_iff. cbn.
    intros [H|[H|[]]]; [apply (F k'); [now right|exact H]|].
    subst. contradiction.
Qed.

Lemma initial_data_table {S : Summation} (row_ranges : RowRanges) :
  NoDup (map fst row_ranges) ->
  ~ In Name_key (map fst row_ranges) ->
  initial_data row_ranges = custom_table row_ranges [].
Proof.
  intros N F. unfold initial_data.
  rewrite fold_dict_set_fresh; [|exact N|].
  - cbn [app]. unfold custom_table, metric_columns. cbn [map]. f_equal.
    rewrite map_map. reflexivity.
  - intros k I [H|[]]. cbn in H. subst. contradiction.
Qed.

Lemma means_defined_numbers (row_ranges : RowRanges) (vs : list pyfloat) :
  means_defined row_ranges (Numeric vs) = true.
Proof. destruct row_ranges; reflexivity. Qed.

(** On a column held as text the first mean raises. *)
Lemma for_items_text {S : Summation} (items : RowRanges) (df : DataFrame)
      (ts : list (option pystr)) (d : PyDict) :
  column AVG df = Some (Text ts) ->
  items <> [] ->
  outcome (snd (for_items items df d)) = inl TypeError.
Proof.
  intros C N. destruct items as [|[m [a b]] rest]; [now elim N|].
  cbn [for_items].
  assert (G : lift (getitem df AVG) d = (d, ([], inr (Text ts))))
    by (unfold lift, getitem; now rewrite C).
  rewrite (sbind_returns _ _ _ _ _ G).
  apply sbind_outcome_raises. reflexivity.
Qed.

(** The loop over the metrics on a column of numbers, part of them done:
    each metric in turn receives the mean of its slice; [tail] is what
    follows them in [data]. *)
Lemma for_items_run_tail {S : Summation} (todo done : RowRanges)
      (names : list pyval) (files : list (pystr * Series)) (f : pystr)
      (vs : list pyfloat) (df : DataFrame) (tail : PyDict) :
  column AVG df = Some (Numeric vs) ->
  NoDup (map fst (done ++ todo)) ->
  ~ In Name_key (map fst (done ++ todo)) ->
  let d := (Name_key, names)
             :: metric_columns done (files ++ [(f, Numeric vs)])
             ++ metric_columns todo files ++ tail in
  for_items todo df d
  = ((Name_key, names)
       :: metric_columns (done ++ todo) (files ++ [(f, Numeric vs)]) ++ tail,
     ([], inr tt)).
Proof.
  intros C. revert done.
  induction todo as [|[m [a b]] todo IH]; intros done N F d.
  - cbn. subst d. now rewrite !app_nil_r.
  - assert (G : lift (getitem df AVG) d = (d, ([], inr (Numeric vs))))
      by (unfold lift, getitem; now rewrite C).
    cbn [for_items]. rewrite (sbind_returns _ _ _ _ _ G).
    assert (V : lift (mean (iloc_slice (Numeric vs) a b)) d
                = (d, ([], inr (slice_mean (Numeric vs) a b))))
      by reflexivity.
    rewrite (sbind_returns _ _ _ _ _ V).
    assert (K : ~ In m (map fst ((Name_key, names)
                                   :: metric_columns done (files ++ [(f, Numeric vs)])))).
    { cbn [map fst]. rewrite metric_columns_keys. intros [E|I].
      - apply F. rewrite map_app, in_app_iff. right. left. now symmetry.
      - rewrite map_app in N. apply NoDup_remove_2 in N.
        apply N. rewrite in_app_iff. now left. }
    set (pre := (Name_key, names)
                  :: metric_columns done (files ++ [(f, Numeric vs)])) in *.
    assert (D : d = pre ++ (m, metric_column files a b)
                        :: (metric_columns todo files ++ tail))
      by reflexivity.
    assert (L : list_append m (VFloat (slice_mean (Numeric vs) a b)) d
                = (pre ++ (m, metric_column (files ++ [(f, Numeric vs)]) a b)
                       :: (metric_columns todo files ++ tail),
                   ([], inr tt))).
    { unfold list_append. rewrite D, dict_get_here, dict_set_here by exact K.
      unfold metric_column. rewrite map_app. reflexivity. }
    rewrite (sbind_returns _ _ _ _ _ L).
    specialize (IH (done ++ [(m, (a, b))])).
    rewrite <- !app_assoc in IH. cbn [app] in IH.
    specialize (IH N F). cbv zeta in IH.
    rewrite metric_columns_app in IH. cbn [metric_columns map fst snd] in IH.
    rewrite <- app_assoc in IH. cbn [app] in IH.
    subst pre. cbn [app]. exact IH.
Qed.

Lemma custom_try_body_run {S : Summation} (row_ranges : RowRanges)
      (files : list (pystr * Series)) (name : pystr) (avg : Series)
      (df : DataFrame) :
  NoDup (map fst row_ranges) ->
  ~ In Name_key (map fst row_ranges) ->
  column AVG df = Some avg ->
  if means_defined row_ranges avg
  then custom_try_body name row_ranges df (custom_table row_ranges files)
       = (custom_table row_ranges (files ++ [(name, avg)]), ([], inr tt))
  else outcome (snd (custom_try_body name row_ranges df (custom_table row_ranges files)))
       = inl TypeError.
Proof.
  intros N F C. unfold custom_try_body.
  assert (L : list_append Name_key (VStr name) (custom_table row_ranges files)
              = ((Name_key, map (fun f => VStr (fst f)) (files ++ [(name, avg)]))
                   :: metric_columns row_ranges files,
                 ([], inr tt))).
  { unfold list_append, custom_table. cbn [dict_get dict_set].
    rewrite str_eqb_refl, map_app. reflexivity. }
  rewrite (sbind_returns _ _ _ _ _ L).
  destruct avg as [vs|ts].
  - rewrite means_defined_numbers.
    pose proof (for_items_run_tail row_ranges []
                  (map (fun f => VStr (fst f)) (files ++ [(name, Numeric vs)]))
                  files name vs df [] C N F) as R.
    cbv zeta in R. cbn [metric_columns map app] in R. rewrite !app_nil_r in R.
    exact R.
  - destruct row_ranges as [|r rest]; [reflexivity|].
    cbn [means_defined]. apply (for_items_text _ _ ts); [exact C|discriminate].
Qed.

(** *** From one file to a run *)

Section Shape.
Context {S : Summation}.
Variable row_ranges : RowRanges.

(** [table files] is [data] after the files [files]. *)
Variable table : list (pystr * Series) -> PyDict.

Hypothesis table_step :
  forall files name avg df,
    column AVG df = Some avg ->
    if means_defined row_ranges avg
    then custom_try_body name row_ranges df (table files)
         = (table (files ++ [(name, avg)]), ([], inr tt))
    else outcome (snd (custom_try_body name row_ranges df (table files)))
         = inl TypeError.

Lemma shape_loop_body (e : entry) (files : list (pystr * Series)) :
  match custom_entry_result row_ranges e with
  | inl x =>
      outcome (snd (custom_loop_body row_ranges e (table files))) = inl x
  | inr fs =>
      custom_loop_body row_ranges e (table files)
      = (table (files ++ fs), ([], inr tt))
  end.
Proof.
  destruct e as [csv_file [x|df]]; [reflexivity|].
  unfold custom_entry_result, custom_loop_body. cbn [fst snd].
  rewrite (sbind_returns _ _ _ (table files) df) by reflexivity.
  destruct (column AVG df) as [avg|] eqn:C.
  - assert (A : has_column AVG df = true)
      by (apply has_column_column; now exists avg).
    rewrite A. cbn [negb].
    rewrite s_try_except_quiet by apply custom_try_body_quiet.
    pose proof (table_step files (str_replace csv_file dot_csv []) avg df C) as T.
    destruct (means_defined row_ranges avg); exact T.
  - rewrite (column_None _ C). cbn [negb]. now rewrite app_nil_r.
Qed.

Lemma shape_for_each (csv_files : list entry) (files : list (pystr * Series)) :
  match custom_collect row_ranges csv_files with
  | inl x =>
      outcome (snd (custom_for_each row_ranges csv_files (table files))) = inl x
  | inr fs =>
      custom_for_each row_ranges csv_files (table files)
      = (table (files ++ fs), ([], inr tt))
  end.
Proof.
  revert files. induction csv_files as [|e rest IH]; intros files.
  - cbn. now rewrite app_nil_r.
  - cbn [custom_collect custom_for_each].
    pose proof (shape_loop_body e files) as B.
    destruct (custom_entry_result row_ranges e) as [x|fs].
    + now apply sbind_outcome_raises.
    + rewrite (sbind_returns _ _ _ _ _ B).
      specialize (IH (files ++ fs)).
      destruct (custom_collect row_ranges rest) as [x|fs']; [exact IH|].
      now rewrite app_assoc.
Qed.

Lemma shape_outcome (folder : Folder) :
  initial_data row_ranges = table [] ->
  outcome (process_teacher_csvs_custom folder row_ranges)
  = match custom_collect row_ranges (csv_files_of folder) with
    | inl x => inl x
    | inr files =>
        if same_lengths (table files) then inr (table files) else inl ValueError
    end.
Proof.
  intros I. unfold process_teacher_csvs_custom. cbv zeta. rewrite I.
  pose proof (shape_for_each (csv_files_of folder) []) as R.
  destruct (custom_collect row_ranges (csv_files_of folder)) as [x|files].
  - destruct (custom_for_each row_ranges (csv_files_of folder) (table []))
      as [d [out [y|a]]]; cbn in R; [|discriminate R].
    injection R as ->. reflexivity.
  - rewrite R. cbn [app]. unfold pd_DataFrame_of_dict.
    destruct (same_lengths (table files)); reflexivity.
Qed.

End Shape.

Lemma same_lengths_table {S : Summation} (row_ranges : RowRanges) (files : list (pystr * Series)) :
  same_lengths (custom_table row_ranges files) = true.
Proof.
  unfold custom_table, same_lengths. apply forallb_forall.
  intros c I. apply in_map_iff in I as (r & <- & _).
  cbn [snd]. unfold metric_column. rewrite !length_map. apply Nat.eqb_refl.
Qed.

Lemma custom_outcome {S : Summation} (folder : Folder) (row_ranges : RowRanges) :
  NoDup (map fst row_ranges) ->
  ~ In Name_key (map fst row_ranges) ->
  outcome (process_teacher_csvs_custom folder row_ranges)
  = match custom_collect row_ranges (csv_files_of folder) with
    | inl x => inl x
    | inr files => inr (custom_table row_ranges files)
    end.
Proof.
  intros N F.
  rewrite (shape_outcome row_ranges (custom_table row_ranges)
             (fun files name avg df => custom_try_body_run row_ranges files name avg df N F)
             folder (initial_data_table _ N F)).
  destruct (custom_collect row_ranges (csv_files_of folder)) as [x|files];
    [reflexivity|].
  now rewrite same_lengths_table.
Qed.

Lemma metric_lookup {S : Summation} (row_ranges : RowRanges) (files : list (pystr * Series))
      (m : pystr) (a b : Z) :
  NoDup (map fst row_ranges) ->
  ~ In Name_key (map fst row_ranges) ->
  In (m, (a, b)) row_ranges ->
  dict_get (custom_table row_ranges files) m = Some (metric_column files a b).
Proof.
  intros N F I. apply in_split in I as (pre & post & ->).
  unfold custom_table. rewrite metric_columns_app.
  cbn [metric_columns map fst snd].
  apply (dict_get_here
           ((Name_key, map (fun f => VStr (fst f)) files) :: metric_columns pre files)).
  cbn [map fst]. rewrite metric_columns_keys.
  intros [E|E].
  - apply F. rewrite map_app, in_app_iff. right. left. now symmetry.
  - rewrite map_app in N. apply NoDup_remove_2 in N.
    apply N. rewrite in_app_iff. now left.
Qed.

(** X9: when [row_ranges] names each metric once and none "Name", a run
    returns the table of the names of the ".csv" files that have an "AVG"
    column, in order, with one column for each metric, in the order of
    [row_ranges], holding for each of these files the mean of the slice
    [start:end] of its column; it raises the exception of the first file that
    cannot be loaded, or whose "AVG" column is held as text when a metric is
    asked for, and never [ValueError] for lists of different lengths. *)
Theorem custom_columns {S : Summation} (folder : Folder) (row_ranges : RowRanges) :
  NoDup (map fst row_ranges) ->
  ~ In Name_key (map fst row_ranges) ->
  outcome (process_teacher_csvs_custom folder row_ranges)
  = match custom_collect row_ranges (csv_files_of folder) with
    | inl x => inl x
    | inr files => inr (custom_table row_ranges files)
    end
  /\ forall files m a b,
       In (m, (a, b)) row_ranges ->
       map fst (custom_table row_ranges files) = Name_key :: map fst row_ranges
       /\ dict_get (custom_table row_ranges files) Name_key
          = Some (map (fun f => VStr (fst f)) files)
       /\ dict_get (custom_table row_ranges files) m
          = Some (metric_column files a b).
Proof.
  intros N F. split; [now apply custom_outcome|].
  intros files m a b I. split; [|split].
  - unfold custom_table. cbn [map fst]. now rewrite metric_columns_keys.
  - unfold custom_table. cbn [dict_get]. now rewrite str_eqb_refl.
  - now apply metric_lookup.
Qed.

Lemma sample_ranges_keys :
  NoDup (map fst sample_ranges) /\ ~ In Name_key (map fst sample_ranges).
Proof.
  split.
  - constructor; [intros [H|[]]; discriminate H|].
    constructor; [intros []|constructor].
  - intros [H|[H|[]]]; discriminate H.
Defined.

Lemma late_ranges_keys :
  NoDup (map fst late_ranges) /\ ~ In Name_key (map fst late_ranges).
Proof.
  split.
  - constructor; [intros []|constructor].
  - intros [H|[]]; discriminate H.
Defined.

Lemma custom_columns_witness :
  outcome (process_teacher_csvs_custom (S := sequential) counted_files sample_ranges)
  = inr [(Name_key, [VStr (py "ann"); VStr (py "eve")]);
         (py "Late", [VFloat 19.5%float; VFloat 1%float]);
         (py "Early", [VFloat 3%float; VFloat 1%float])]
  /\ outcome (process_teacher_csvs_custom (S := sequential)
                [(py "t.csv", inr (table short_text))] late_ranges)
     = inl TypeError.
Proof.
  split.
  - refine (eq_trans
              (proj1 (custom_columns (S := sequential) counted_files sample_ranges
                        (proj1 sample_ranges_keys) (proj2 sample_ranges_keys)))
              _).
    vm_compute. reflexivity.
  - refine (eq_trans
              (proj1 (custom_columns (S := sequential)
                        [(py "t.csv", inr (table short_text))] late_ranges
                        (proj1 late_ranges_keys) (proj2 late_ranges_keys)))
              _).
    vm_compute. reflexivity.
Defined.

(** *** The ranges of the docstring *)

Lemma slice_mean_nat {S : Summation} (avg : Series) (start stop : nat) :
  slice_mean avg (Z.of_nat start) (Z.of_nat stop)
  = nanmean (slice (numbers_of avg) start stop).
Proof.
  unfold slice_mean. rewrite iloc_slice_nat.
  destruct avg as [vs|ts]; cbn [iloc numbers_of]; [reflexivity|].
  unfold slice. now rewrite skipn_nil, firstn_nil.
Qed.

Lemma default_collect {S : Summation} (csv_files : list entry) :
  collect csv_files
  = match custom_collect default_ranges csv_files with
    | inl x => inl x
    | inr files => inr (map record_of_file files)
    end.
Proof.
  induction csv_files as [|[f file] rest IH]; [reflexivity|].
  cbn [collect custom_collect]. rewrite IH.
  unfold entry_result, custom_entry_result. cbn [fst snd].
  destruct file as [x|df]; [reflexivity|].
  destruct (column AVG df) as [[vs|ts]|].
  - cbn [means_defined default_ranges].
    destruct (custom_collect default_ranges rest); reflexivity.
  - reflexivity.
  - destruct (custom_collect default_ranges rest); reflexivity.
Qed.

Lemma default_table {S : Summation} (files : list (pystr * Series)) :
  custom_table default_ranges files = table_of_rows (map record_of_file files).
Proof.
  unfold custom_table, table_of_rows, metric_columns, metric_column,
    default_ranges, record_of_file.
  cbn [map fst snd]. rewrite !map_map. cbn [teacher_name band_record
    instructor_skill interaction student_motivation course_organization].
  change 0%Z with (Z.of_nat 0). change 5%Z with (Z.of_nat 5).
  change 11%Z with (Z.of_nat 11). change 15%Z with (Z.of_nat 15).
  change 21%Z with (Z.of_nat 21).
  assert (H : forall a b : nat,
             map (fun f : pystr * Series =>
                    VFloat (slice_mean (snd f) (Z.of_nat a) (Z.of_nat b)))
                 files
             = map (fun f => VFloat (nanmean (slice (numbers_of (snd f)) a b))) files)
    by (intros a b; apply map_ext; intros f; now rewrite slice_mean_nat).
  rewrite !H. reflexivity.
Qed.

Lemma default_ranges_keys :
  NoDup (map fst default_ranges) /\ ~ In Name_key (map fst default_ranges).
Proof.
  split.
  - repeat (constructor; [cbn; intuition discriminate|]). constructor.
  - cbn. intuition discriminate.
Qed.

(** X10: with the ranges of its docstring, [process_teacher_csvs_custom]
    does what [process_teacher_csvs] does on every directory: it raises the
    same exception, or returns the table whose columns are the five columns
    of the rows that [process_teacher_csvs] returns. *)
Theorem custom_default_agrees {S : Summation} (folder : Folder) :
  outcome (process_teacher_csvs_custom folder default_ranges)
  = match outcome (process_teacher_csvs folder) with
    | inl x => inl x
    | inr rs => inr (table_of_rows rs)
    end.
Proof.
  rewrite (custom_outcome folder default_ranges
                          (proj1 default_ranges_keys) (proj2 default_ranges_keys)).
  rewrite outcome_collect, default_collect.
  destruct (custom_collect default_ranges (csv_files_of folder)) as [x|files];
    [reflexivity|].
  now rewrite default_table.
Qed.

(** *** A metric called "Name" *)

Lemma sbind_ext {A B} (m : ST A) (k k' : A -> ST B) (d : PyDict) :
  (forall a d', k a d' = k' a d') -> sbind m k d = sbind m k' d.
Proof.
  intros H. unfold sbind. destruct (m d) as [d' [out [e|a]]]; [reflexivity|].
  now rewrite H.
Qed.

Lemma sbind_assoc {A B C} (m : ST A) (f : A -> ST B) (g : B -> ST C) (d : PyDict) :
  sbind (sbind m f) g d = sbind m (fun a => sbind (f a) g) d.
Proof.
  unfold sbind. destruct (m d) as [d1 [o1 [e|a]]]; [reflexivity|].
  destruct (f a d1) as [d2 [o2 [e|b]]]; [reflexivity|].
  destruct (g b d2) as [d3 [o3 r]]. now rewrite app_assoc.
Qed.

Lemma sbind_sret {A B} (a : A) (k : A -> ST B) (d : PyDict) :
  sbind (sret a) k d = k a d.
Proof. unfold sbind, sret. cbn. destruct (k a d) as [d' [o r]]. reflexivity. Qed.

(** The loop over two lists of metrics is the loop over the first, then
    the loop over the second. *)
Lemma for_items_app {S : Summation} (l1 l2 : RowRanges) (df : DataFrame) (d : PyDict) :
  for_items (l1 ++ l2) df d
  = sbind (for_items l1 df) (fun _ => for_items l2 df) d.
Proof.
  revert d. induction l1 as [|[m [a b]] l1 IH]; intros d.
  - cbn [app for_items]. now rewrite sbind_sret.
  - cbn [app for_items]. rewrite sbind_assoc. apply sbind_ext. intros avg d1.
    rewrite sbind_assoc. apply sbind_ext. intros v d2.
    rewrite sbind_assoc. apply sbind_ext. intros _ d3. apply IH.
Qed.

Lemma NoDup_app_apart {A} (l1 l2 : list A) (x : A) :
  NoDup (l1 ++ l2) -> In x l1 -> ~ In x l2.
Proof.
  induction l1 as [|y l1 IH]; intros N I; [destruct I|].
  cbn in N. inversion N as [|z l Hy N']; subst.
  destruct I as [->|I]; [|now apply IH].
  intros J. apply Hy. apply in_app_iff. now right.
Qed.

Lemma name_and_mean_length {S : Summation} (a b : Z) (files : list (pystr * Series)) :
  length (name_and_mean a b files) = 2 * length files.
Proof.
  induction files as [|f files IH]; [reflexivity|].
  unfold name_and_mean in *. cbn [flat_map app length]. rewrite IH. lia.
Qed.

Lemma collision_keys (pre post : RowRanges) (a b : Z) :
  NoDup (map fst (pre ++ (Name_key, (a, b)) :: post)) ->
  NoDup (map fst (pre ++ post)) /\ ~ In Name_key (map fst (pre ++ post)).
Proof.
  rewrite !map_app. cbn [map fst]. intros N. split.
  - exact (NoDup_remove_1 _ _ _ N).
  - exact (NoDup_remove_2 _ _ _ N).
Qed.

Lemma collision_initial {S : Summation} (pre post : RowRanges) (a b : Z) :
  NoDup (map fst (pre ++ (Name_key, (a, b)) :: post)) ->
  initial_data (pre ++ (Name_key, (a, b)) :: post) = collision_table pre a b post [].
Proof.
  intros N. destruct (collision_keys _ _ _ _ N) as [N' F'].
  rewrite map_app in N', F'.
  unfold initial_data. rewrite map_app, fold_left_app.
  assert (P : fold_left (fun d k => dict_set d k []) (map fst pre) [(Name_key, [])]
              = [(Name_key, [])] ++ map (fun k => (k, [])) (map fst pre)).
  { apply fold_dict_set_fresh; [exact (NoDup_app_remove_r _ _ N')|].
    intros k I [E|[]]. cbn [fst] in E. apply F'. rewrite in_app_iff. left.
    now rewrite E. }
  rewrite P. cbn [map fst fold_left app dict_set]. rewrite str_eqb_refl.
  rewrite fold_dict_set_fresh.
  - unfold collision_table, metric_columns. cbn [name_and_mean flat_map app].
    f_equal. rewrite !map_app, !map_map. reflexivity.
  - exact (NoDup_app_remove_l _ _ N').
  - intros k I. cbn [map fst]. rewrite map_map. cbn [fst].
    rewrite map_id. intros [E|E].
    + apply F'. rewrite in_app_iff. right. now rewrite E.
    + exact (NoDup_app_apart _ _ k N' E I).
Qed.

Lemma collision_try_body {S : Summation} (pre post : RowRanges) (a b : Z)
      (files : list (pystr * Series)) (name : pystr) (avg : Series) (df : DataFrame) :
  NoDup (map fst (pre ++ (Name_key, (a, b)) :: post)) ->
  column AVG df = Some avg ->
  if means_defined (pre ++ (Name_key, (a, b)) :: post) avg
  then custom_try_body name (pre ++ (Name_key, (a, b)) :: post) df
                       (collision_table pre a b post files)
       = (collision_table pre a b post (files ++ [(name, avg)]), ([], inr tt))
  else outcome (snd (custom_try_body name (pre ++ (Name_key, (a, b)) :: post) df
                                     (collision_table pre a b post files)))
       = inl TypeError.
Proof.
  intros N C. destruct (collision_keys _ _ _ _ N) as [N' F'].
  unfold custom_try_body, collision_table.
  set (L := name_and_mean a b files).
  assert (A1 : list_append Name_key (VStr name)
                 ((Name_key, L) :: metric_columns (pre ++ post) files)
               = ((Name_key, L ++ [VStr name]) :: metric_columns (pre ++ post) files,
                  ([], inr tt))).
  { unfold list_append. cbn [dict_get dict_set]. now rewrite str_eqb_refl. }
  rewrite (sbind_returns _ _ _ _ _ A1).
  destruct avg as [vs|ts].
  2: { assert (E : means_defined (pre ++ (Name_key, (a, b)) :: post) (Text ts)
                   = false) by (destruct pre; reflexivity).
       rewrite E. apply (for_items_text _ _ ts); [exact C|].
       destruct pre; discriminate. }
  rewrite means_defined_numbers, for_items_app.
  pose proof (for_items_run_tail pre [] (L ++ [VStr name]) files name vs df
                (metric_columns post files) C) as P.
  cbn [app] in P. rewrite map_app in N', F'.
  specialize (P (NoDup_app_remove_r _ _ N')
                (fun I => F' (proj2 (in_app_iff _ _ _) (or_introl I)))).
  cbv zeta in P. cbn [metric_columns map app] in P.
  rewrite metric_columns_app.
  rewrite (sbind_returns _ _ _ _ _ P). cbn [for_items].
  set (d2 := (Name_key, L ++ [VStr name])
               :: metric_columns pre (files ++ [(name, Numeric vs)])
               ++ metric_columns post files).
  assert (G : lift (getitem df AVG) d2 = (d2, ([], inr (Numeric vs))))
    by (unfold lift, getitem; now rewrite C).
  rewrite (sbind_returns _ _ _ _ _ G).
  assert (V : lift (mean (iloc_slice (Numeric vs) a b)) d2
              = (d2, ([], inr (slice_mean (Numeric vs) a b))))
    by reflexivity.
  rewrite (sbind_returns _ _ _ _ _ V).
  assert (A2 : list_append Name_key (VFloat (slice_mean (Numeric vs) a b)) d2
               = ((Name_key, name_and_mean a b (files ++ [(name, Numeric vs)]))
                    :: metric_columns pre (files ++ [(name, Numeric vs)])
                    ++ metric_columns post files,
                  ([], inr tt))).
  { unfold list_append, d2. cbn [dict_get dict_set]. rewrite str_eqb_refl.
    unfold name_and_mean. rewrite flat_map_app. cbn [flat_map app fst snd].
    fold (name_and_mean a b files). fold L. now rewrite <- app_assoc. }
  rewrite (sbind_returns _ _ _ _ _ A2).
  pose proof (for_items_run_tail post pre
                (name_and_mean a b (files ++ [(name, Numeric vs)]))
                files name vs df [] C) as Q.
  rewrite <- map_app in N', F'. specialize (Q N' F'). cbv zeta in Q.
  rewrite !app_nil_r in Q. exact Q.
Qed.

Lemma collision_same_lengths {S : Summation} (pre post : RowRanges) (a b : Z)
      (files : list (pystr * Series)) :
  same_lengths (collision_table pre a b post files)
  = match files, pre ++ post with
    | _ :: _, _ :: _ => false
    | _, _ => true
    end.
Proof.
  unfold collision_table, same_lengths. rewrite name_and_mean_length.
  destruct files as [|f files].
  - apply forallb_forall. intros c I.
    apply in_map_iff in I as (r & <- & _). reflexivity.
  - destruct (pre ++ post) as [|r others]; [reflexivity|].
    cbn [metric_columns map forallb snd]. unfold metric_column at 1.
    rewrite length_map.
    replace (length (f :: files) =? 2 * length (f :: files))%nat with false;
      [reflexivity|].
    symmetry. apply Nat.eqb_neq. cbn. lia.
Qed.

(** X14: when one of the metrics of [row_ranges] is itself called
    "Name", its means go into the list of the names.  As soon as one file is
    kept and there is another metric, the lists differ in length and the run
    ends in [ValueError]; otherwise it returns a "Name" column in which every
    name is followed by a mean.  A file that cannot be loaded, or whose
    "AVG" column is held as text, ends the run before that with its own
    exception. *)
Theorem name_metric_collides {S : Summation} (folder : Folder)
        (pre post : RowRanges) (a b : Z) :
  NoDup (map fst (pre ++ (Name_key, (a, b)) :: post)) ->
  outcome (process_teacher_csvs_custom folder (pre ++ (Name_key, (a, b)) :: post))
  = match custom_collect (pre ++ (Name_key, (a, b)) :: post) (csv_files_of folder) with
    | inl x => inl x
    | inr files =>
        match files, pre ++ post with
        | _ :: _, _ :: _ => inl ValueError
        | _, _ => inr (collision_table pre a b post files)
        end
    end.
Proof.
  intros N.
  rewrite (shape_outcome (pre ++ (Name_key, (a, b)) :: post)
             (collision_table pre a b post)
             (fun files name avg df => collision_try_body pre post a b files name avg df N)
             folder (collision_initial _ _ _ _ N)).
  destruct (custom_collect (pre ++ (Name_key, (a, b)) :: post) (csv_files_of folder))
    as [x|files]; [reflexivity|].
  rewrite collision_same_lengths.
  destruct files, (pre ++ post); reflexivity.
Qed.

Lemma name_metric_collides_witness :
  outcome (process_teacher_csvs_custom (S := sequential)
             three_files ([(py "Late", (-3, -1)%Z)] ++ (Name_key, (0, 5)%Z) :: []))
  = inl ValueError
  /\ outcome (process_teacher_csvs_custom (S := sequential)
                counted_files ([] ++ (Name_key, (0, 5)%Z) :: []))
     = inr [(Name_key, [VStr (py "ann"); VFloat 3%float;
                        VStr (py "eve"); VFloat 1%float])]
  /\ outcome (process_teacher_csvs_custom (S := sequential)
                [(py "t.csv", inr (table short_text))]
                (late_ranges ++ (Name_key, (5, 9)%Z) :: []))
     = inl TypeError.
Proof.
  split; [|split].
  - refine (eq_trans
              (name_metric_collides (S := sequential) three_files
                 [(py "Late", (-3, -1)%Z)] [] 0 5 _) _);
      [|vm_compute; reflexivity].
    constructor; [intros [H|[]]; discriminate H|].
    constructor; [intros []|constructor].
  - refine (eq_trans
              (name_metric_collides (S := sequential) counted_files [] [] 0 5 _) _);
      [|vm_compute; reflexivity].
    constructor; [intros []|constructor].
  - refine (eq_trans
              (name_metric_collides (S := sequential)
                 [(py "t.csv", inr (table short_text))] late_ranges [] 5 9 _) _);
      [|vm_compute; reflexivity].
    constructor; [intros [H|[]]; discriminate H|].
    constructor; [intros []|constructor].
Defined.

End CustomFacts.
(** * Further properties of the text normaliser *)

Module CleanFacts.
Import TextFacts.

Local Open Scope N_scope.

Lemma remove_lower_map (U : Unicode) (series : TextSeries) :
  remove_lower U series = map (clean_text U) series.
Proof. apply remove_lower_unfold. Qed.

(** *** Texts without brackets, texts already clean *)

Lemma match_bracketed_other (c : pychar) (r : pystr) :
  c <> lbracket -> match_bracketed (c :: r) = None.
Proof.
  intros H. unfold match_bracketed.
  apply N.eqb_neq in H. now rewrite H.
Qed.

Lemma sub_bracketed_prefix (pre rest : pystr) :
  ~ In lbracket pre ->
  sub_bracketed_from 0 (pre ++ rest) = pre ++ sub_bracketed_from 0 rest.
Proof.
  induction pre as [|c pre IH]; intros H; [reflexivity|].
  cbn [app sub_bracketed_from].
  rewrite match_bracketed_other by (intros E; apply H; now left).
  f_equal. apply IH. intros I. apply H. now right.
Qed.

Lemma sub_bracketed_no_bracket (t : pystr) :
  ~ In lbracket t -> sub_bracketed t = t.
Proof.
  intros H. unfold sub_bracketed.
  rewrite <- (app_nil_r t) at 1. rewrite sub_bracketed_prefix by exact H.
  cbn. apply app_nil_r.
Qed.

Lemma sub_not_word_space_kept (U : Unicode) (t : pystr) :
  Forall (kept U) (sub_not_word_space U t).
Proof.
  apply Forall_forall. intros c H.
  apply sub_not_word_space_In in H as [_ H]. now apply kept_iff.
Qed.

Lemma kept_unchanged (U : Unicode) (t : pystr) :
  Forall (kept U) t -> clean_text U t = t.
Proof.
  intros K. unfold clean_text.
  rewrite sub_bracketed_no_bracket.
  - unfold sub_not_word_space. apply forallb_filter_id.
    apply forallb_forall. intros c I. apply kept_iff.
    exact (proj1 (Forall_forall _ _) K c I).
  - intros I. apply (proj1 (bracket_not_kept U)).
    exact (proj1 (Forall_forall _ _) K _ I).
Qed.

(** X11: [remove_lower] leaves unchanged exactly the texts made of
    alphanumeric characters, underscores and white space, capital letters
    included; what it returns is such a text, so applying it twice is
    applying it once, and [clean_normalize] gives the same result on texts
    cleaned beforehand. *)
Theorem remove_lower_idempotent (U : Unicode) (series : TextSeries) :
  remove_lower U (remove_lower U series) = remove_lower U series
  /\ (forall t, remove_lower U [t] = [t] <-> Forall (kept U) t)
  /\ (forall nlp,
        clean_normalize U nlp (remove_lower U series) = clean_normalize U nlp series).
Proof.
  assert (I : remove_lower U (remove_lower U series) = remove_lower U series).
  { rewrite !remove_lower_map, map_map. apply map_ext. intros t.
    apply kept_unchanged. apply sub_not_word_space_kept. }
  split; [exact I|]. split.
  - intros t. rewrite remove_lower_map. cbn [map]. split.
    + intros H. injection H as H. rewrite <- H. apply sub_not_word_space_kept.
    + intros K. now rewrite kept_unchanged.
  - intros nlp. unfold clean_normalize. cbv zeta. now rewrite I.
Qed.

(** *** Bracketed segments *)

Lemma match_lazy_close_body (body post : pystr) :
  ~ In rbracket body -> ~ In newline body ->
  match_lazy_close (body ++ rbracket :: post) = Some (S (length body)).
Proof.
  induction body as [|c body IH]; intros R L; cbn [app match_lazy_close].
  - now rewrite N.eqb_refl.
  - assert (Cr : (c =? rbracket) = false)
      by (apply N.eqb_neq; intros E; apply R; now left).
    assert (Cn : (c =? newline) = false)
      by (apply N.eqb_neq; intros E; apply L; now left).
    unfold re_dot. rewrite Cr, Cn. cbn [negb].
    rewrite IH; [reflexivity| |]; intros I; [apply R|apply L]; now right.
Qed.

Lemma sub_bracketed_skip (seg rest : pystr) :
  sub_bracketed_from (length seg) (seg ++ rest) = sub_bracketed_from 0 rest.
Proof. induction seg as [|c seg IH]; [reflexivity|exact IH]. Qed.

Lemma sub_bracketed_one_segment (body post : pystr) :
  ~ In rbracket body -> ~ In newline body ->
  sub_bracketed_from 0 (lbracket :: body ++ rbracket :: post)
  = sub_bracketed_from 0 post.
Proof.
  intros R L. cbn [sub_bracketed_from match_bracketed].
  rewrite N.eqb_refl, (match_lazy_close_body body post R L).
  cbn [option_map Nat.sub].
  change (S (length body)) with (length (lbracket :: body)).
  replace (body ++ rbracket :: post) with ((body ++ [rbracket]) ++ post)
    by now rewrite <- app_assoc.
  replace (length (lbracket :: body)) with (length (body ++ [rbracket]))
    by (rewrite length_app; cbn; lia).
  apply sub_bracketed_skip.
Qed.

(** X12: a segment from a ['['] to the first [']'] after it, on one line,
    is dropped with what it holds, after any text without ['[']: the
    cleaned text is the cleaned text before it followed by the cleaned rest. *)
Theorem bracketed_segment_dropped (U : Unicode) (pre body post : pystr) :
  ~ In lbracket pre ->
  ~ In rbracket body ->
  ~ In newline body ->
  sub_bracketed (pre ++ lbracket :: body ++ rbracket :: post)
  = pre ++ sub_bracketed post
  /\ remove_lower U [pre ++ lbracket :: body ++ rbracket :: post]
     = map (app (sub_not_word_space U pre)) (remove_lower U [post]).
Proof.
  intros P R L.
  assert (S : sub_bracketed (pre ++ lbracket :: body ++ rbracket :: post)
              = pre ++ sub_bracketed post).
  { unfold sub_bracketed. rewrite sub_bracketed_prefix by exact P.
    now rewrite sub_bracketed_one_segment. }
  split; [exact S|].
  rewrite !remove_lower_map. cbn [map]. unfold clean_text. rewrite S.
  unfold sub_not_word_space. now rewrite filter_app.
Qed.

Lemma bracketed_segment_dropped_witness :
  remove_lower ascii_only [py "Great " ++ lbracket :: py "TA name" ++ rbracket :: py " TEACHER!!"]
  = map (app (sub_not_word_space ascii_only (py "Great ")))
        (remove_lower ascii_only [py " TEACHER!!"]).
Proof.
  apply (bracketed_segment_dropped ascii_only (py "Great ") (py "TA name")
                                   (py " TEACHER!!"));
    vm_compute; intuition discriminate.
Defined.

(** *** Lines *)

Lemma match_lazy_close_line (r rest : pystr) :
  match_lazy_close (r ++ newline :: rest) = match_lazy_close r.
Proof.
  induction r as [|c r IH]; [reflexivity|].
  cbn [app match_lazy_close]. now rewrite IH.
Qed.

Lemma match_bracketed_line (c : pychar) (r rest : pystr) :
  match_bracketed (c :: r ++ newline :: rest) = match_bracketed (c :: r).
Proof. unfold match_bracketed. now rewrite match_lazy_close_line. Qed.

Lemma match_lazy_close_length (r : pystr) (n : nat) :
  match_lazy_close r = Some n -> (n <= length r)%nat.
Proof.
  revert n. induction r as [|c r IH]; intros n H; [discriminate H|].
  cbn [match_lazy_close] in H.
  destruct (c =? rbracket); [injection H as <-; cbn; lia|].
  destruct (re_dot c); [|discriminate H].
  destruct (match_lazy_close r) as [m|]; [|discriminate H].
  injection H as <-. specialize (IH m eq_refl). cbn. lia.
Qed.

Lemma match_bracketed_length (s : pystr) (n : nat) :
  match_bracketed s = Some n -> (n <= length s)%nat.
Proof.
  destruct s as [|c r]; [discriminate|]. unfold match_bracketed.
  destruct (c =? lbracket); [|discriminate].
  destruct (match_lazy_close r) as [m|] eqn:E; [|discriminate].
  intros H. injection H as <-. apply match_lazy_close_length in E. cbn. lia.
Qed.

Lemma sub_bracketed_line (l1 l2 : pystr) (k : nat) :
  (k <= length l1)%nat ->
  sub_bracketed_from k (l1 ++ newline :: l2)
  = sub_bracketed_from k l1 ++ newline :: sub_bracketed_from 0 l2.
Proof.
  revert k. induction l1 as [|c r IH]; intros k H.
  - cbn in H. assert (k = 0%nat) by lia. subst. reflexivity.
  - cbn [app sub_bracketed_from]. destruct k as [|k].
    + rewrite match_bracketed_line.
      destruct (match_bracketed (c :: r)) as [n|] eqn:E.
      * apply IH. apply match_bracketed_length in E. cbn in E. lia.
      * cbn [app]. f_equal. apply IH. lia.
    + apply IH. cbn in H. lia.
Qed.

(** X13: the lines of a text are cleaned apart from each other: a ['[']
    is never matched with a [']'] of a later line, and the line break
    stays. *)
Theorem lines_cleaned_apart (U : Unicode) (l1 l2 : pystr) :
  sub_bracketed (l1 ++ newline :: l2)
  = sub_bracketed l1 ++ newline :: sub_bracketed l2
  /\ remove_lower U [l1 ++ newline :: l2]
     = [clean_text U l1 ++ newline :: clean_text U l2]
  /\ remove_lower U [l1; l2] = [clean_text U l1; clean_text U l2].
Proof.
  assert (S : sub_bracketed (l1 ++ newline :: l2)
              = sub_bracketed l1 ++ newline :: sub_bracketed l2)
    by (apply sub_bracketed_line; lia).
  split; [exact S|]. split; [|apply remove_lower_map].
  rewrite remove_lower_map. cbn [map]. unfold clean_text. rewrite S.
  unfold sub_not_word_space. rewrite filter_app. cbn [filter].
  replace (re_w U newline || re_s U newline) with true by reflexivity.
  reflexivity.
Qed.

(** *** The lemmas in the result *)
(** *** The lemmas in the result *)

Lemma split_from_word (cur w rest : pystr) :
  ~ In space w -> split_from cur (w ++ rest) = split_from (rev w ++ cur) rest.
Proof.
  revert cur. induction w as [|c w IH]; intros cur H; [reflexivity|].
  cbn [app split_from].
  assert (C : (c =? space) = false)
    by (apply N.eqb_neq; intros E; apply H; now left).
  rewrite C, IH by (intros I; apply H; now right).
  cbn [rev]. now rewrite <- app_assoc.
Qed.

(** Texts without a space, joined with one space and split at each space,
    come back as they were, the empty ones too. *)
Lemma split_space_join (parts : list pystr) :
  parts <> [] ->
  Forall (fun w => ~ In space w) parts ->
  split_space (join [space] parts) = parts.
Proof.
  unfold split_space.
  induction parts as [|w parts IH]; intros N F; [now elim N|].
  inversion F as [|w' l W F']; subst.
  destruct parts as [|w2 parts].
  - cbn [join]. rewrite <- (app_nil_r w) at 1.
    rewrite split_from_word, app_nil_r by exact W.
    cbn [split_from]. now rewrite rev_involutive.
  - change (join [space] (w :: w2 :: parts))
      with (w ++ space :: join [space] (w2 :: parts)).
    rewrite split_from_word, app_nil_r by exact W.
    cbn [split_from]. rewrite N.eqb_refl, rev_involutive.
    rewrite IH; [reflexivity|discriminate|exact F'].
Qed.

(** A token of white space that is not a stop word has its lemma in the
    result, between the spaces that separate it from its neighbours. *)
Example white_space_token_kept :
  token_lemma_nonstop
    (fun _ => [{| text := py "Great"; lemma_ := py "Great"; is_stop := false |};
               {| text := [space]; lemma_ := [space]; is_stop := false |};
               {| text := py "TEACHER"; lemma_ := py "TEACHER"; is_stop := false |}])
    (py "Great  TEACHER")
  = py "Great   TEACHER".
Proof. vm_compute. reflexivity. Qed.

(** X15: when no lemma of a token that is not a stop word holds a space,
    the result of [token_lemma_nonstop], split at each of its spaces, is
    the list of these lemmas, in the order of the tokens: exactly one space
    stands between two lemmas and none before the first or after the last;
    when every token is a stop word the result is the empty text. *)
Theorem lemmas_recovered (nlp : pystr -> list Token) (t : pystr) :
  Forall (fun token => is_stop token = false -> ~ In space (lemma_ token))
         (nlp t) ->
  match map lemma_ (filter (fun token => negb (is_stop token)) (nlp t)) with
  | [] => token_lemma_nonstop nlp t = []
  | lemmas => split_space (token_lemma_nonstop nlp t) = lemmas
  end.
Proof.
  intros F. unfold token_lemma_nonstop. cbv zeta.
  assert (G : Forall (fun w => ~ In space w)
                     (map lemma_ (filter (fun token => negb (is_stop token)) (nlp t)))).
  { apply Forall_forall. intros w I.
    apply in_map_iff in I as (token & <- & I).
    apply filter_In in I as [I S]. apply negb_true_iff in S.
    exact (proj1 (Forall_forall _ _) F token I S). }
  destruct (map lemma_ (filter (fun token => negb (is_stop token)) (nlp t)))
    as [|w parts] eqn:E; [reflexivity|].
  apply split_space_join; [discriminate|exact G].
Qed.

Lemma lemmas_recovered_witness :
  split_space (token_lemma_nonstop word_nlp (py "the good teacher"))
  = [py "good"; py "teacher"].
Proof.
  apply (lemmas_recovered word_nlp (py "the good teacher")).
  repeat constructor; vm_compute; intuition discriminate.
Defined.

End CleanFacts.
